(** * Mini E-Commerce API: the HTTP handlers of [app/main.py]

    The handlers are embedded as computations over an explicit persistent
    store.  Every handler of [main.py] is an authorisation check followed by
    calls into the [crud] layer; an [HTTPException] aborts the handler but
    does not undo what a [crud] call has already committed. *)

From Stdlib Require Import ZArith List String Bool Lia.
Import ListNotations.
Local Open Scope string_scope.
Local Open Scope Z_scope.

(** ** Tables ([models]) *)

Module User.
Record t := mk { id : Z; email : string; password : string; role : string }.
End User.

Module Address.
(** [body] stands for the postal fields, which no handler inspects. *)
Record t := mk { id : Z; user_id : Z; body : string }.
End Address.

Module Product.
Record t := mk { id : Z; name : string; price : Z; category_id : Z;
                 seller_id : option Z }.
End Product.

Module Cart.
Record t := mk { id : Z; user_id : Z }.
End Cart.

Module CartItem.
Record t := mk { id : Z; cart_id : Z; product_id : Z; quantity : Z }.
End CartItem.

Module Order.
Record t := mk { id : Z; user_id : Z; status : string }.
End Order.

Module OrderItem.
Record t := mk { id : Z; order_id : Z; product_id : Z; quantity : Z }.
End OrderItem.

Module Wishlist.
Record t := mk { id : Z; user_id : Z; product_id : Z }.
End Wishlist.

(** ** Request bodies ([schemas]) *)

Module UserCreate.
Record t := mk { email : string; password : string }.
End UserCreate.

Module UserUpdate.
Record t := mk { email : option string; password : option string;
                 role : option string }.
End UserUpdate.

Module AddressCreate.
Record t := mk { body : string }.
End AddressCreate.

Module AddressUpdate.
Record t := mk { body : option string }.
End AddressUpdate.

Module ProductBase.
Record t := mk { name : string; price : Z; category_id : Z;
                 seller_id : option Z }.
Definition with_seller_id (s : option Z) (p : t) : t :=
  mk (name p) (price p) (category_id p) s.
End ProductBase.

Module CartItemBase.
(** Modelled from the spec: [schemas.CartItemBase] is missing; "add item:
    quantity must be >= 1", so the quantity of a body is a positive number:
    a body with a quantity of zero or less is not a [CartItemBase]. *)
Record t := mk { product_id : Z; quantity : positive }.
End CartItemBase.

(** The decoded bearer credential: the payload handed to
    [create_access_token] and the instant at which it stops being valid. *)
Module AccessToken.
Record t := mk { user_id : Z; email : string; role : string; exp : Z }.
End AccessToken.

Module Token.
Record t := mk { access_token : AccessToken.t; token_type : string }.
End Token.

(** ** The persistent store *)

Record DB := mkDB {
  users : list User.t;
  addresses : list Address.t;
  products : list Product.t;
  carts : list Cart.t;
  cart_items : list CartItem.t;
  orders : list Order.t;
  order_items : list OrderItem.t;
  wishlist : list Wishlist.t
}.

Definition empty_db : DB := mkDB [] [] [] [] [] [] [] [].

Definition set_users (v : list User.t) (db : DB) : DB :=
  mkDB v (addresses db) (products db) (carts db) (cart_items db)
       (orders db) (order_items db) (wishlist db).
Definition set_addresses (v : list Address.t) (db : DB) : DB :=
  mkDB (users db) v (products db) (carts db) (cart_items db)
       (orders db) (order_items db) (wishlist db).
Definition set_products (v : list Product.t) (db : DB) : DB :=
  mkDB (users db) (addresses db) v (carts db) (cart_items db)
       (orders db) (order_items db) (wishlist db).
Definition set_carts (v : list Cart.t) (db : DB) : DB :=
  mkDB (users db) (addresses db) (products db) v (cart_items db)
       (orders db) (order_items db) (wishlist db).
Definition set_cart_items (v : list CartItem.t) (db : DB) : DB :=
  mkDB (users db) (addresses db) (products db) (carts db) v
       (orders db) (order_items db) (wishlist db).
Definition set_orders (v : list Order.t) (db : DB) : DB :=
  mkDB (users db) (addresses db) (products db) (carts db) (cart_items db)
       v (order_items db) (wishlist db).
Definition set_order_items (v : list OrderItem.t) (db : DB) : DB :=
  mkDB (users db) (addresses db) (products db) (carts db) (cart_items db)
       (orders db) v (wishlist db).
Definition set_wishlist (v : list Wishlist.t) (db : DB) : DB :=
  mkDB (users db) (addresses db) (products db) (carts db) (cart_items db)
       (orders db) (order_items db) v.

(** Auto-incremented primary key: one past the largest key in the table. *)
Definition next_id (ids : list Z) : Z := 1 + fold_right Z.max 0 ids.

(** ** Handlers as computations: state plus exceptions *)

Inductive exn :=
| HTTPException (status_code : Z) (detail : string)
| AttributeError
| DetachedInstanceError.

Inductive result (A : Type) :=
| Ok (a : A)
| Raise (e : exn).
Arguments Ok {A} a.
Arguments Raise {A} e.

Definition M (A : Type) : Type := DB -> result A * DB.

Definition ret {A} (a : A) : M A := fun db => (Ok a, db).
Definition raise {A} (e : exn) : M A := fun db => (Raise e, db).
Definition bind {A B} (c : M A) (k : A -> M B) : M B :=
  fun db => match c db with
            | (Ok a, db') => k a db'
            | (Raise e, db') => (Raise e, db')
            end.
Definition query {A} (f : DB -> A) : M A := fun db => (Ok (f db), db).

Notation "x <- c ;; k" := (bind c (fun x => k))
  (at level 61, c at next level, right associativity).
Notation "c ;;; k" := (bind c (fun _ => k))
  (at level 61, right associativity).

(** The status code a caller observes; [success] is the code the route
    declares for a normal return, and an exception that is not an
    [HTTPException] surfaces as 500. *)
Definition status_of {A} (r : result A) (success : Z) : Z :=
  match r with
  | Ok _ => success
  | Raise (HTTPException c _) => c
  | Raise AttributeError => 500
  | Raise DetachedInstanceError => 500
  end.

(** Python's [a != b] on integers and on strings. *)
Definition Z_ne (a b : Z) : bool := negb (a =? b).
Definition str_ne (a b : string) : bool := negb (String.eqb a b).

(** The password hashing context the [crud] layer delegates to. *)
Class CryptContext := {
  pwd_hash : string -> string;
  pwd_verify : string -> string -> bool
}.

(** How [crud.create_product] settles the owner of a new product from the
    [seller_id] of the body and from its own [seller_id] argument.  Neither
    the sources nor the design document say which of the two wins when they
    differ; when both name the same seller, that seller owns the product
    ("if requester role is seller, product.seller_id is forced to
    requester.id"). *)
Class SellerIdPolicy := {
  stored_seller_id : option Z -> option Z -> option Z;
  stored_seller_id_agree :
    forall s, stored_seller_id (Some s) (Some s) = Some s
}.

(** ** The [crud] layer

    [app/crud.py] is not part of the sources at hand; its functions are
    reconstructed from the design document, one definition per function that
    [main.py] calls, under the name and with the arguments of the call. *)

Module crud.

(** Row helpers shared by the functions below: overwrite the row of a
    primary key, delete it, and default an absent field. *)
Definition replace_row {R} (key : R -> Z) (row : R) (l : list R) : list R :=
  map (fun r => if key r =? key row then row else r) l.
Definition delete_row {R} (key : R -> Z) (k : Z) (l : list R) : list R :=
  filter (fun r => negb (key r =? k)) l.
Definition or_else {A} (o : option A) (d : A) : A :=
  match o with Some a => a | None => d end.

(** Modelled from the spec: [crud.get_user] is missing; it reads the User
    row with the given id, or nothing. *)
Definition get_user (user_id : Z) : M (option User.t) :=
  query (fun db => find (fun u => User.id u =? user_id) (users db)).

(** Modelled from the spec: [crud.get_user_by_email] is missing; it reads
    the first User row registered under the email, or nothing. *)
Definition get_user_by_email (email : string) : M (option User.t) :=
  query (fun db => find (fun u => String.eqb (User.email u) email) (users db)).

Section Passwords.
Context `{CryptContext}.

(** Modelled from the spec: [crud.create_user] is missing; it "stores
    password hashed, default role customer" and commits the new row. *)
Definition create_user (user : UserCreate.t) : M User.t :=
  fun db =>
    let u := User.mk (next_id (map User.id (users db)))
                     (UserCreate.email user)
                     (pwd_hash (UserCreate.password user))
                     "customer" in
    (Ok u, set_users (users db ++ [u]) db).

(** Modelled from the spec: [crud.update_user] is missing; it overwrites
    the fields present in the update on the given row and commits. *)
Definition update_user (user : User.t) (update : UserUpdate.t) : M User.t :=
  fun db =>
    let u := User.mk (User.id user)
               (or_else (UserUpdate.email update) (User.email user))
               (or_else (option_map pwd_hash (UserUpdate.password update))
                        (User.password user))
               (or_else (UserUpdate.role update) (User.role user)) in
    (Ok u, set_users (replace_row User.id u (users db)) db).

(** Modelled from the spec: [crud.verify_password] is missing; it checks
    a plain password against a stored hash. *)
Definition verify_password (plain hashed : string) : bool :=
  pwd_verify plain hashed.
End Passwords.

(** Modelled from the spec: [crud.del_user] is missing; it deletes the User
    row with the given id and returns it, or returns nothing. *)
Definition del_user (user_id : Z) : M (option User.t) :=
  fun db =>
    match find (fun u => User.id u =? user_id) (users db) with
    | Some u => (Ok (Some u), set_users (delete_row User.id user_id (users db)) db)
    | None => (Ok None, db)
    end.

(** Modelled from the spec: [crud.create_address] is missing; it stores a
    new Address row owned by [user_id]. *)
Definition create_address (user_id : Z) (address : AddressCreate.t)
  : M Address.t :=
  fun db =>
    let a := Address.mk (next_id (map Address.id (addresses db))) user_id
                        (AddressCreate.body address) in
    (Ok a, set_addresses (addresses db ++ [a]) db).

(** Modelled from the spec: [crud.get_address] is missing; it reads the
    first Address row of the user, or nothing. *)
Definition get_address (user_id : Z) : M (option Address.t) :=
  query (fun db => find (fun a => Address.user_id a =? user_id) (addresses db)).

(** Modelled from the spec: [crud.update_address] is missing; it overwrites
    the fields present in the update on the given row and commits. *)
Definition update_address (db_address : Address.t) (update : AddressUpdate.t)
  : M Address.t :=
  fun db =>
    let a := Address.mk (Address.id db_address) (Address.user_id db_address)
               (or_else (AddressUpdate.body update) (Address.body db_address)) in
    (Ok a, set_addresses (replace_row Address.id a (addresses db)) db).

(** Modelled from the spec: [crud.get_product] is missing; it reads the
    Product row with the given id, or nothing. *)
Definition get_product (product_id : Z) : M (option Product.t) :=
  query (fun db => find (fun p => Product.id p =? product_id) (products db)).

Section Ownership.
Context `{SellerIdPolicy}.

(** Modelled from the spec: [crud.create_product] is missing; it stores a
    new Product row with the name, price and category of the body.  Its
    owner is settled from the [seller_id] of the body and the [seller_id]
    argument by [stored_seller_id]. *)
Definition create_product (product : ProductBase.t) (seller_id : option Z)
  : M Product.t :=
  fun db =>
    let p := Product.mk (next_id (map Product.id (products db)))
                        (ProductBase.name product) (ProductBase.price product)
                        (ProductBase.category_id product)
                        (stored_seller_id (ProductBase.seller_id product)
                                          seller_id) in
    (Ok p, set_products (products db ++ [p]) db).
End Ownership.

Definition owned_by (s : Z) (p : Product.t) : bool :=
  match Product.seller_id p with
  | Some o => o =? s
  | None => false
  end.

(** Modelled from the spec: [crud.update_product] is missing; with a
    [seller_id] it touches only that seller's products, and it returns
    nothing "when the product does not exist or does not belong to the
    requester". *)
Definition update_product (product_id : Z) (update : ProductBase.t)
                          (seller_id : option Z) : M (option Product.t) :=
  fun db =>
    match find (fun p => Product.id p =? product_id) (products db) with
    | None => (Ok None, db)
    | Some p =>
        if match seller_id with Some s => owned_by s p | None => true end
        then
          let p' := Product.mk (Product.id p) (ProductBase.name update)
                      (ProductBase.price update)
                      (ProductBase.category_id update) (Product.seller_id p) in
          (Ok (Some p'), set_products (replace_row Product.id p' (products db)) db)
        else (Ok None, db)
    end.

(** Modelled from the spec: [crud.delete_product] is missing; an admin
    deletes any product, anyone else only a product of their own, and it
    returns nothing "when the product does not exist or does not belong to
    the requester". *)
Definition delete_product (product_id user_id : Z) (user_role : string)
  : M (option Product.t) :=
  fun db =>
    match find (fun p => Product.id p =? product_id) (products db) with
    | None => (Ok None, db)
    | Some p =>
        if String.eqb user_role "admin" || owned_by user_id p
        then (Ok (Some p),
              set_products (delete_row Product.id product_id (products db)) db)
        else (Ok None, db)
    end.

(** Modelled from the spec: [crud.get_cart] is missing; it reads the cart
    of the user ("one cart per user"), or nothing. *)
Definition get_cart (user_id : Z) : M (option Cart.t) :=
  query (fun db => find (fun c => Cart.user_id c =? user_id) (carts db)).

(** Modelled from the spec: [crud.create_cart] is missing; it stores a new,
    empty cart owned by [user_id]. *)
Definition create_cart (user_id : Z) : M Cart.t :=
  fun db =>
    let c := Cart.mk (next_id (map Cart.id (carts db))) user_id in
    (Ok c, set_carts (carts db ++ [c]) db).

Definition same_line (cart_id product_id : Z) (i : CartItem.t) : bool :=
  (CartItem.cart_id i =? cart_id) && (CartItem.product_id i =? product_id).

(** Modelled from the spec: [crud.add_cart_item] is missing; "add item:
    quantity must be >= 1; if product already in cart ... must be summed",
    otherwise a new line is stored.  The quantity of the body is positive by
    its type. *)
Definition add_cart_item (cart_id : Z) (item : CartItemBase.t)
  : M CartItem.t :=
  fun db =>
    match find (same_line cart_id (CartItemBase.product_id item))
               (cart_items db) with
    | Some existing =>
        let i := CartItem.mk (CartItem.id existing) (CartItem.cart_id existing)
                   (CartItem.product_id existing)
                   (CartItem.quantity existing
                    + Z.pos (CartItemBase.quantity item)) in
        (Ok i, set_cart_items (replace_row CartItem.id i (cart_items db)) db)
    | None =>
        let i := CartItem.mk (next_id (map CartItem.id (cart_items db)))
                   cart_id (CartItemBase.product_id item)
                   (Z.pos (CartItemBase.quantity item)) in
        (Ok i, set_cart_items (cart_items db ++ [i]) db)
    end.

(** Modelled from the spec: [crud.update_cart_item] is missing; it sets the
    quantity of the line with the given id, commits and returns the line,
    or returns nothing "if item absent". *)
Definition update_cart_item (cart_item_id quantity : Z)
  : M (option CartItem.t) :=
  fun db =>
    match find (fun i => CartItem.id i =? cart_item_id) (cart_items db) with
    | Some old =>
        let i := CartItem.mk (CartItem.id old) (CartItem.cart_id old)
                             (CartItem.product_id old) quantity in
        (Ok (Some i),
         set_cart_items (replace_row CartItem.id i (cart_items db)) db)
    | None => (Ok None, db)
    end.

(** Modelled from the spec: [crud.remove_cart_item] is missing; it deletes
    the line with the given id, commits and returns the deleted line, or
    returns nothing "if absent". *)
Definition remove_cart_item (cart_item_id : Z) : M (option CartItem.t) :=
  fun db =>
    match find (fun i => CartItem.id i =? cart_item_id) (cart_items db) with
    | Some i =>
        (Ok (Some i),
         set_cart_items (delete_row CartItem.id cart_item_id (cart_items db)) db)
    | None => (Ok None, db)
    end.

(** The lines of a cart, in table order. *)
Definition cart_lines (cart_id : Z) (db : DB) : list CartItem.t :=
  filter (fun i => CartItem.cart_id i =? cart_id) (cart_items db).

(** The lines of an order, in table order. *)
Definition order_lines (order_id : Z) (db : DB) : list OrderItem.t :=
  filter (fun i => OrderItem.order_id i =? order_id) (order_items db).

(** One order line per cart line, numbered from [base] on. *)
Fixpoint snapshot (order_id base : Z) (lines : list CartItem.t)
  : list OrderItem.t :=
  match lines with
  | [] => []
  | i :: rest =>
      OrderItem.mk base order_id (CartItem.product_id i) (CartItem.quantity i)
      :: snapshot order_id (base + 1) rest
  end.

(** Modelled from the spec: [crud.create_order_from_cart_for_user] is
    missing; "Cart(non-empty) --create_order--> Order(status=placed); cart
    items cleared atomically with order creation", and "creating an order
    from an empty cart fails with BadRequest".  The spec names a [total]
    on the order without saying how it is computed; it is left out. *)
Definition create_order_from_cart_for_user (user_id : Z) : M Order.t :=
  fun db =>
    match find (fun c => Cart.user_id c =? user_id) (carts db) with
    | None => (Raise (HTTPException 400 "Cart is empty"), db)
    | Some cart =>
        match cart_lines (Cart.id cart) db with
        | [] => (Raise (HTTPException 400 "Cart is empty"), db)
        | lines =>
            let o := Order.mk (next_id (map Order.id (orders db))) user_id
                              "placed" in
            let rows := snapshot (Order.id o)
                          (next_id (map OrderItem.id (order_items db))) lines in
            (Ok o,
             set_cart_items
               (filter (fun i => negb (CartItem.cart_id i =? Cart.id cart))
                       (cart_items db))
               (set_order_items (order_items db ++ rows)
                  (set_orders (orders db ++ [o]) db)))
        end
    end.

(** Modelled from the spec: [crud.get_orders] is missing; it lists the
    orders of the user. *)
Definition get_orders (user_id : Z) : M (list Order.t) :=
  query (fun db => filter (fun o => Order.user_id o =? user_id) (orders db)).

(** Modelled from the spec: [crud.get_order] is missing; it reads the Order
    row with the given id, or nothing. *)
Definition get_order (order_id : Z) : M (option Order.t) :=
  query (fun db => find (fun o => Order.id o =? order_id) (orders db)).

(** Modelled from the spec: [crud.add_to_wishlist] is missing; it stores a
    new entry ("source does not enforce uniqueness"). *)
Definition add_to_wishlist (user_id product_id : Z) : M Wishlist.t :=
  fun db =>
    let w := Wishlist.mk (next_id (map Wishlist.id (wishlist db)))
                         user_id product_id in
    (Ok w, set_wishlist (wishlist db ++ [w]) db).

(** Modelled from the spec: [crud.get_wishlist] is missing; it lists the
    entries of the user. *)
Definition get_wishlist (user_id : Z) : M (list Wishlist.t) :=
  query (fun db => filter (fun w => Wishlist.user_id w =? user_id) (wishlist db)).

(** Modelled from the spec: [crud.remove_from_wishlist] is missing; it
    deletes the entry with the given id, commits and returns the deleted
    entry, or returns nothing "if absent". *)
Definition remove_from_wishlist (wishlist_id : Z) : M (option Wishlist.t) :=
  fun db =>
    match find (fun w => Wishlist.id w =? wishlist_id) (wishlist db) with
    | Some w =>
        (Ok (Some w),
         set_wishlist (delete_row Wishlist.id wishlist_id (wishlist db)) db)
    | None => (Ok None, db)
    end.

(** Modelled from the spec: [crud.get_addresses] is missing; it lists the
    addresses of the user. *)
Definition get_addresses (user_id : Z) : M (list Address.t) :=
  query (fun db =>
           filter (fun a => Address.user_id a =? user_id) (addresses db)).

End crud.

(** ** The access-control layer ([auth])

    [get_current_user] resolves the bearer credential before a handler
    runs; the handlers below receive the resolved requester. *)

Module auth.

(** Modelled from the spec: [auth.create_access_token] is missing; it
    issues a "signed token carrying user_id, email, role, expiry", the
    expiry being [expires_delta] after the instant [now] of issuance.  The
    signature is not represented. *)
Definition create_access_token (data : Z * string * string)
                               (expires_delta now : Z) : AccessToken.t :=
  let '(user_id, email, role) := data in
  AccessToken.mk user_id email role (now + expires_delta).

(** Modelled from the spec: [auth.get_current_admin] is missing;
    "requireAdmin: role == admin, else Forbidden". *)
Definition get_current_admin (current_user : User.t) : M User.t :=
  if str_ne (User.role current_user) "admin"
  then raise (HTTPException 403 "Admin access required")
  else ret current_user.

(** Modelled from the spec: [auth.get_current_seller] is missing;
    "requireSeller: role == seller or admin, else Forbidden". *)
Definition get_current_seller (current_user : User.t) : M User.t :=
  if String.eqb (User.role current_user) "seller"
     || String.eqb (User.role current_user) "admin"
  then ret current_user
  else raise (HTTPException 403 "Seller access required").

End auth.

(** [timedelta(minutes=m)], in seconds. *)
Definition timedelta_minutes (m : Z) : Z := m * 60.

(** ** The handlers of [main.py] *)

(** Modelled from the spec: [models.CartItem.cart] is missing; a cart line
    "belongs to Cart", so the relationship is the cart its [cart_id] names,
    loaded from the store when the attribute is read.  It can be loaded for
    a row that is stored; for a row that has been deleted the load is
    refused with a [DetachedInstanceError]. *)
Definition CartItem_cart (item : CartItem.t) : M (option Cart.t) :=
  fun db =>
    match find (fun i => CartItem.id i =? CartItem.id item) (cart_items db) with
    | None => (Raise DetachedInstanceError, db)
    | Some _ =>
        (Ok (find (fun c => Cart.id c =? CartItem.cart_id item) (carts db)), db)
    end.

Section Handlers.
Context `{CryptContext}.

(** POST /users/ *)
Definition create_user (user : UserCreate.t) : M User.t :=
  db_user <- crud.get_user_by_email (UserCreate.email user) ;;
  match db_user with
  | Some _ => raise (HTTPException 400 "Email already registered")
  | None => crud.create_user user
  end.

(** GET /users/{user_id} *)
Definition read_user (user_id : Z) : M User.t :=
  db_user <- crud.get_user user_id ;;
  match db_user with
  | None => raise (HTTPException 404 "User not found")
  | Some db_user => ret db_user
  end.

(** PUT /users/{user_id} *)
Definition update_user (user_id : Z) (update : UserUpdate.t)
                       (current_user : User.t) : M User.t :=
  if Z_ne user_id (User.id current_user)
     && str_ne (User.role current_user) "admin"
  then raise (HTTPException 403 "You are not authorized to modify this user")
  else
    db_user <- crud.get_user user_id ;;
    match db_user with
    | None => raise (HTTPException 404 "User not found")
    | Some db_user => crud.update_user db_user update
    end.

(** DELETE /users/{user_id} *)
Definition delete_user (user_id : Z) (current_user : User.t) : M User.t :=
  if Z_ne user_id (User.id current_user)
     && str_ne (User.role current_user) "admin"
  then raise (HTTPException 403 "You are not authorized to delete this user")
  else
    db_user <- crud.del_user user_id ;;
    match db_user with
    | None => raise (HTTPException 404 "User not found")
    | Some db_user => ret db_user
    end.

(** [update.role and update.role not in ["customer", "seller", "admin"]] *)
Definition invalid_role (role : option string) : bool :=
  match role with
  | None => false
  | Some r =>
      negb (String.eqb r "")
      && negb (existsb (String.eqb r) ["customer"; "seller"; "admin"])
  end.

(** PUT /admin/users/{user_id}/role *)
Definition admin_update_user_role (user_id : Z) (update : UserUpdate.t)
                                  (current_user : User.t) : M User.t :=
  admin <- auth.get_current_admin current_user ;;
  db_user <- crud.get_user user_id ;;
  match db_user with
  | None => raise (HTTPException 404 "User not found")
  | Some db_user =>
      if invalid_role (UserUpdate.role update)
      then raise (HTTPException 400 "Invalid role")
      else crud.update_user db_user update
  end.

(** POST /addresses/ *)
Definition add_address (user_id : Z) (address : AddressCreate.t)
                       (current_user : User.t) : M Address.t :=
  if Z_ne user_id (User.id current_user)
     && str_ne (User.role current_user) "admin"
  then raise (HTTPException 403 "You are not authorized for this action")
  else crud.create_address user_id address.

(** POST /addresses/{user_id}/update *)
Definition update_address (user_id : Z) (update : AddressUpdate.t)
                          (current_user : User.t) : M Address.t :=
  if Z_ne user_id (User.id current_user)
     && str_ne (User.role current_user) "admin"
  then raise (HTTPException 403
                "You are not authorized to update another user's address")
  else
    db_address <- crud.get_address user_id ;;
    match db_address with
    | None => raise (HTTPException 404 "Address not found")
    | Some db_address =>
        if Z_ne (Address.user_id db_address) (User.id current_user)
           && str_ne (User.role current_user) "admin"
        then raise (HTTPException 403 "Not authorized to update this address")
        else crud.update_address db_address update
    end.

(** GET /me *)
Definition read_me (current_user : User.t) : M User.t := ret current_user.

(** POST /login; [now] is the instant at which the token is issued. *)
Definition login (username password : string) (now : Z) : M Token.t :=
  user <- crud.get_user_by_email username ;;
  match user with
  | None => raise (HTTPException 401 "Incorrect email or password")
  | Some user =>
      if negb (crud.verify_password password (User.password user))
      then raise (HTTPException 401 "Incorrect email or password")
      else
        let access_token :=
          auth.create_access_token
            (User.id user, User.email user, User.role user)
            (timedelta_minutes 60) now in
        ret (Token.mk access_token "bearer")
  end.
End Handlers.

Section ProductHandlers.
Context `{SellerIdPolicy}.

(** POST /products/ *)
Definition create_product (product : ProductBase.t) (current_user : User.t)
  : M Product.t :=
  let product :=
    if String.eqb (User.role current_user) "seller"
    then ProductBase.with_seller_id (Some (User.id current_user)) product
    else product in
  crud.create_product product
    (if String.eqb (User.role current_user) "seller"
     then Some (User.id current_user) else None).
End ProductHandlers.

(** PUT /seller/products/{product_id} *)
Definition seller_update_product (product_id : Z) (product_update : ProductBase.t)
                                 (current_user : User.t) : M Product.t :=
  seller <- auth.get_current_seller current_user ;;
  updated_product <-
    crud.update_product product_id product_update
      (if String.eqb (User.role seller) "seller"
       then Some (User.id seller) else None) ;;
  match updated_product with
  | None => raise (HTTPException 404 "Product not found or not authorized")
  | Some updated_product => ret updated_product
  end.

(** DELETE /seller/products/{product_id} *)
Definition seller_delete_product (product_id : Z) (current_user : User.t)
  : M string :=
  seller <- auth.get_current_seller current_user ;;
  deleted_product <-
    crud.delete_product product_id (User.id seller) (User.role seller) ;;
  match deleted_product with
  | None => raise (HTTPException 404 "Product not found or not authorized")
  | Some _ => ret "Product deleted successfully"
  end.

(** DELETE /admin/products/{product_id} *)
Definition admin_delete_product (product_id : Z) (current_user : User.t)
  : M string :=
  admin <- auth.get_current_admin current_user ;;
  deleted_product <-
    crud.delete_product product_id (User.id admin) (User.role admin) ;;
  match deleted_product with
  | None => raise (HTTPException 404 "Product not found")
  | Some _ => ret "Product deleted successfully"
  end.

(** GET /cart/{user_id} *)
Definition get_cart (user_id : Z) (current_user : User.t) : M Cart.t :=
  if Z_ne (User.id current_user) user_id
     && str_ne (User.role current_user) "admin"
  then raise (HTTPException 403 "You are not authorized to access this cart")
  else
    cart <- crud.get_cart (User.id current_user) ;;
    match cart with
    | None => crud.create_cart (User.id current_user)
    | Some cart => ret cart
    end.

(** POST /cart/{user_id}/items *)
Definition add_item_to_cart (user_id : Z) (item : CartItemBase.t)
                            (current_user : User.t) : M CartItem.t :=
  if Z_ne (User.id current_user) user_id
     && str_ne (User.role current_user) "admin"
  then raise (HTTPException 403 "You are not authorized to access this cart")
  else
    cart <- crud.get_cart (User.id current_user) ;;
    cart <- match cart with
            | None => crud.create_cart (User.id current_user)
            | Some cart => ret cart
            end ;;
    crud.add_cart_item (Cart.id cart) item.

(** PUT /cart/items/{cart_item_id} *)
Definition update_cart_item (cart_item_id quantity : Z) (current_user : User.t)
  : M CartItem.t :=
  item <- crud.update_cart_item cart_item_id quantity ;;
  match item with
  | None => raise (HTTPException 404 "Cart item not found")
  | Some item =>
      cart <- CartItem_cart item ;;
      match cart with
      | None => raise AttributeError
      | Some cart =>
          if Z_ne (Cart.user_id cart) (User.id current_user)
             && str_ne (User.role current_user) "admin"
          then raise (HTTPException 403 "Not allowed to modify this item")
          else ret item
      end
  end.

(** DELETE /cart/items/{cart_item_id} *)
Definition delete_cart_item (cart_item_id : Z) (current_user : User.t)
  : M string :=
  item <- crud.remove_cart_item cart_item_id ;;
  match item with
  | None => raise (HTTPException 404 "Cart item not found")
  | Some item =>
      cart <- query (fun db =>
                find (fun c => Cart.id c =? CartItem.cart_id item) (carts db)) ;;
      item_cart <- CartItem_cart item ;;
      match item_cart with
      | None => raise AttributeError
      | Some item_cart =>
          if Z_ne (Cart.user_id item_cart) (User.id current_user)
             && str_ne (User.role current_user) "admin"
          then raise (HTTPException 403 "Not allowed to delete this item")
          else
            crud.remove_cart_item cart_item_id ;;;
            ret "Cart Item Deleted Successfully"
      end
  end.

(** POST /orders/ *)
Definition create_order_from_cart (user_id : Z) (current_user : User.t)
  : M Order.t :=
  if Z_ne user_id (User.id current_user)
     && str_ne (User.role current_user) "admin"
  then raise (HTTPException 403 "Not authorized")
  else crud.create_order_from_cart_for_user (User.id current_user).

(** GET /orders/{user_id} *)
Definition get_orders (user_id : Z) (current_user : User.t)
  : M (list Order.t) :=
  if Z_ne user_id (User.id current_user)
     && str_ne (User.role current_user) "admin"
  then raise (HTTPException 403 "Not authorized")
  else crud.get_orders (User.id current_user).

(** GET /orders/detail/{order_id} *)
Definition get_order (order_id : Z) (current_user : User.t) : M Order.t :=
  order <- crud.get_order order_id ;;
  match order with
  | None => raise (HTTPException 404 "Order not found")
  | Some order =>
      if Z_ne (Order.user_id order) (User.id current_user)
         && str_ne (User.role current_user) "admin"
      then raise (HTTPException 403 "Not allowed to access this order")
      else ret order
  end.

(** POST /wishlist/ *)
Definition add_to_wishlist_endpoint (product_id : Z) (current_user : User.t)
  : M Wishlist.t :=
  crud.add_to_wishlist (User.id current_user) product_id.

(** GET /wishlist/ *)
Definition get_wishlist_endpoint (current_user : User.t)
  : M (list Wishlist.t) :=
  crud.get_wishlist (User.id current_user).

(** DELETE /wishlist/{wishlist_id} *)
Definition remove_wishlist_endpoint (wishlist_id : Z) (current_user : User.t)
  : M unit :=
  item <- crud.remove_from_wishlist wishlist_id ;;
  match item with
  | None => raise (HTTPException 404 "Wishlist item not found")
  | Some item =>
      if Z_ne (Wishlist.user_id item) (User.id current_user)
         && str_ne (User.role current_user) "admin"
      then raise (HTTPException 403 "Not allowed")
      else ret tt
  end.

(** GET /addresses/{user_id}; the route takes no requester. *)
Definition list_addresses (user_id : Z) : M (list Address.t) :=
  crud.get_addresses user_id.

(** GET /products/{product_id}; the route takes no requester. *)
Definition get_product (product_id : Z) : M Product.t :=
  product <- crud.get_product product_id ;;
  match product with
  | None => raise (HTTPException 404 "Product not found")
  | Some product => ret product
  end.

(** ** Requests that write to a user-scoped resource *)

Inductive Mutation :=
| PUT_users (user_id : Z) (update : UserUpdate.t)
| DELETE_users (user_id : Z)
| PUT_admin_users_role (user_id : Z) (update : UserUpdate.t)
| POST_addresses (user_id : Z) (address : AddressCreate.t)
| POST_addresses_update (user_id : Z) (update : AddressUpdate.t)
| GET_cart (user_id : Z)
| POST_cart_items (user_id : Z) (item : CartItemBase.t)
| PUT_cart_items (cart_item_id quantity : Z)
| DELETE_cart_items (cart_item_id : Z)
| POST_orders (user_id : Z)
| DELETE_wishlist (wishlist_id : Z).

(** The user who owns the cart that holds a cart line. *)
Definition cart_item_owner (cart_item_id : Z) (db : DB) : option Z :=
  match find (fun i => CartItem.id i =? cart_item_id) (cart_items db) with
  | None => None
  | Some item =>
      option_map Cart.user_id
        (find (fun c => Cart.id c =? CartItem.cart_id item) (carts db))
  end.

(** The owner of the resource a request names: the user of the path or
    query for the user, address, cart and order routes, the stored owner
    for the routes addressed by a row id. *)
Definition resource_owner (m : Mutation) (db : DB) : option Z :=
  match m with
  | PUT_users u _ | DELETE_users u | PUT_admin_users_role u _
  | POST_addresses u _ | POST_addresses_update u _
  | GET_cart u | POST_cart_items u _ | POST_orders u => Some u
  | PUT_cart_items i _ | DELETE_cart_items i => cart_item_owner i db
  | DELETE_wishlist w =>
      option_map Wishlist.user_id
        (find (fun e => Wishlist.id e =? w) (wishlist db))
  end.

Definition respond {A} (success : Z) (c : M A) (db : DB) : Z * DB :=
  let (r, db') := c db in (status_of r success, db').

Section Routing.
Context `{CryptContext}.

(** Route a request to its handler; the answer is the status line and the
    store the request leaves behind. *)
Definition serve (m : Mutation) (current_user : User.t) : DB -> Z * DB :=
  match m with
  | PUT_users u upd => respond 200 (update_user u upd current_user)
  | DELETE_users u => respond 200 (delete_user u current_user)
  | PUT_admin_users_role u upd =>
      respond 200 (admin_update_user_role u upd current_user)
  | POST_addresses u a => respond 200 (add_address u a current_user)
  | POST_addresses_update u upd =>
      respond 200 (update_address u upd current_user)
  | GET_cart u => respond 200 (get_cart u current_user)
  | POST_cart_items u item =>
      respond 200 (add_item_to_cart u item current_user)
  | PUT_cart_items i q => respond 200 (update_cart_item i q current_user)
  | DELETE_cart_items i => respond 200 (delete_cart_item i current_user)
  | POST_orders u => respond 200 (create_order_from_cart u current_user)
  | DELETE_wishlist w => respond 204 (remove_wishlist_endpoint w current_user)
  end.
End Routing.

(** ** Store invariants and request sequences *)

(** The (cart, product) pair a cart line stands for. *)
Definition line_key (i : CartItem.t) : Z * Z :=
  (CartItem.cart_id i, CartItem.product_id i).

(** Primary keys of cart lines are unique, and no cart holds two lines for
    one product. *)
Definition cart_items_wf (db : DB) : Prop :=
  NoDup (map CartItem.id (cart_items db))
  /\ NoDup (map line_key (cart_items db)).




(** Registered emails are pairwise distinct. *)
Definition emails_unique (db : DB) : Prop :=
  NoDup (map User.email (users db)).

(** A hashing context to run the handlers with. *)
Definition tagged_crypt : CryptContext :=
  {| pwd_hash := fun plain => String.append "hashed:" plain;
     pwd_verify := fun plain hashed =>
                     String.eqb hashed (String.append "hashed:" plain) |}.

(** ** A small populated store

    Two customers, an admin and two sellers.  alice owns a cart with one
    line and a wishlist entry; sam sells the one product; bob, the admin and
    tess own nothing. *)

Definition alice : User.t := User.mk 1 "alice@example.com" "hashed:apple" "customer".
Definition bob : User.t := User.mk 2 "bob@example.com" "hashed:berry" "customer".
Definition root : User.t := User.mk 3 "root@example.com" "hashed:cherry" "admin".
Definition sam : User.t := User.mk 4 "sam@example.com" "hashed:damson" "seller".
Definition tess : User.t := User.mk 5 "tess@example.com" "hashed:elder" "seller".

Definition shop_db : DB :=
  mkDB [alice; bob; root; sam; tess]
       []
       [Product.mk 7 "pen" 120 1 (Some 4)]
       [Cart.mk 1 1]
       [CartItem.mk 1 1 7 2]
       []
       []
       [Wishlist.mk 1 1 7].

(** ** Carts and orders as a caller sees them *)

(** The lines of the cart of a user; none when the user has no cart. *)
Definition user_cart_lines (user_id : Z) (db : DB) : list CartItem.t :=
  match find (fun c => Cart.user_id c =? user_id) (carts db) with
  | None => []
  | Some cart => crud.cart_lines (Cart.id cart) db
  end.

(** What a line says: which product, how many. *)
Definition cart_line (i : CartItem.t) : Z * Z :=
  (CartItem.product_id i, CartItem.quantity i).
Definition order_line (i : OrderItem.t) : Z * Z :=
  (OrderItem.product_id i, OrderItem.quantity i).

(** Every order line belongs to a stored order. *)
Definition order_items_wf (db : DB) : Prop :=
  forall i, In i (order_items db) ->
            In (OrderItem.order_id i) (map Order.id (orders db)).

(** The routes whose handler tests ownership or role before its first
    [crud] call that writes. *)
Definition checks_before_write (m : Mutation) : bool :=
  match m with
  | PUT_cart_items _ _ | DELETE_cart_items _ | DELETE_wishlist _ => false
  | _ => true
  end.

(** No user owns two carts. *)
Definition carts_unique (db : DB) : Prop :=
  NoDup (map Cart.user_id (carts db)).

(** The same store after the admin has put nine pens in a cart of their
    own. *)
Definition busy_db : DB :=
  mkDB [alice; bob; root; sam; tess]
       []
       [Product.mk 7 "pen" 120 1 (Some 4)]
       [Cart.mk 1 1; Cart.mk 2 3]
       [CartItem.mk 1 1 7 2; CartItem.mk 2 2 7 9]
       []
       []
       [Wishlist.mk 1 1 7].

(** Two ways [crud.create_product] may settle the owner: the argument
    always wins, or a [seller_id] in the body wins. *)
Definition keyword_wins : SellerIdPolicy :=
  {| stored_seller_id := fun _ keyword => keyword;
     stored_seller_id_agree := fun s => eq_refl |}.
Definition body_wins : SellerIdPolicy :=
  {| stored_seller_id := fun body keyword =>
                           match body with Some s => Some s | None => keyword end;
     stored_seller_id_agree := fun s => eq_refl |}.

(** No stored row has the id that a route addressed by row id names. *)
Definition no_row_with_id (m : Mutation) (db : DB) : Prop :=
  match m with
  | PUT_cart_items i _ | DELETE_cart_items i =>
      find (fun x => CartItem.id x =? i) (cart_items db) = None
  | DELETE_wishlist w =>
      find (fun x => Wishlist.id x =? w) (wishlist db) = None
  | _ => True
  end.

(** * Properties *)

(** ** Comparisons and fresh keys *)

Lemma Z_ne_true (a b : Z) : a <> b -> Z_ne a b = true.
Proof. intro Hab. unfold Z_ne. apply negb_true_iff, Z.eqb_neq, Hab. Qed.

Lemma Z_ne_same (a : Z) : Z_ne a a = false.
Proof. unfold Z_ne. now rewrite Z.eqb_refl. Qed.

Lemma str_ne_true (a b : string) : a <> b -> str_ne a b = true.
Proof. intro Hab. unfold str_ne. apply negb_true_iff, String.eqb_neq, Hab. Qed.

(** The ownership rule rejects a requester who is neither the owner nor an
    admin; [main.py] writes the test in both argument orders. *)
Lemma stranger_rejected (owner : Z) (N : User.t) :
  owner <> User.id N -> User.role N <> "admin" ->
  Z_ne owner (User.id N) && str_ne (User.role N) "admin" = true
  /\ Z_ne (User.id N) owner && str_ne (User.role N) "admin" = true.
Proof.
  intros Hid Hrole.
  rewrite (Z_ne_true _ _ Hid), (str_ne_true _ _ Hrole).
  rewrite Z_ne_true by congruence. now split.
Qed.

Lemma owner_accepted (N : User.t) :
  Z_ne (User.id N) (User.id N) && str_ne (User.role N) "admin" = false.
Proof. now rewrite Z_ne_same. Qed.

Lemma max_bounds (ids : list Z) (k : Z) :
  In k ids -> k <= fold_right Z.max 0 ids.
Proof.
  induction ids as [|x ids IH]; simpl; [tauto|].
  intros [->|Hin]; [lia|]. specialize (IH Hin). lia.
Qed.

Lemma next_id_fresh (ids : list Z) : ~ In (next_id ids) ids.
Proof.
  intro Hin. apply max_bounds in Hin. unfold next_id in Hin. lia.
Qed.

(** ** C10: the ownership check precedes the lookup *)

(** C10. For PUT /users/{id} and DELETE /users/{id}, a requester who is not
    an admin and names an id other than their own is answered 403 before any
    lookup: the store is untouched, and the answer is the same in any two
    stores, whether or not a user with that id exists in either. *)
Theorem user_write_forbidden_before_lookup `{CryptContext} :
  forall (current_user : User.t) (user_id : Z) (update : UserUpdate.t)
         (db1 db2 : DB),
    User.role current_user <> "admin" ->
    user_id <> User.id current_user ->
    update_user user_id update current_user db1
    = (Raise (HTTPException 403 "You are not authorized to modify this user"),
       db1)
    /\ delete_user user_id current_user db1
       = (Raise (HTTPException 403 "You are not authorized to delete this user"),
          db1)
    /\ fst (update_user user_id update current_user db1)
       = fst (update_user user_id update current_user db2)
    /\ fst (delete_user user_id current_user db1)
       = fst (delete_user user_id current_user db2).
Proof.
  intros cu user_id update db1 db2 Hrole Hid.
  destruct (stranger_rejected _ _ Hid Hrole) as [Hguard _].
  unfold update_user, delete_user. rewrite Hguard.
  repeat split.
Qed.

Lemma user_write_forbidden_before_lookup_witness :
  User.role bob <> "admin" /\ 1 <> User.id bob
  /\ fst (@delete_user 1 bob shop_db) = fst (@delete_user 1 bob empty_db)
  /\ crud.get_user 1 shop_db = (Ok (Some alice), shop_db)
  /\ crud.get_user 1 empty_db = (Ok None, empty_db).
Proof.
  assert (Hrole : User.role bob <> "admin") by (simpl; discriminate).
  assert (Hid : 1 <> User.id bob) by (simpl; lia).
  split; [exact Hrole|]. split; [exact Hid|].
  split; [|split; reflexivity].
  exact (proj2 (proj2 (proj2
    (@user_write_forbidden_before_lookup tagged_crypt bob 1
       (UserUpdate.mk None None None) shop_db empty_db Hrole Hid)))).
Defined.

(** ** C6: a seller and somebody else's product *)

Lemma seller_passes_guard (S : User.t) (db : DB) :
  User.role S = "seller" -> auth.get_current_seller S db = (Ok S, db).
Proof.
  intro Hrole. unfold auth.get_current_seller. now rewrite Hrole.
Qed.

Lemma not_owned_by (s : Z) (p : Product.t) :
  Product.seller_id p <> Some s -> crud.owned_by s p = false.
Proof.
  unfold crud.owned_by. destruct (Product.seller_id p) as [o|]; [|reflexivity].
  intro Hne. apply Z.eqb_neq. congruence.
Qed.

(** C6. For a seller, PUT and DELETE /seller/products/{id} answer the same
    404 "Product not found or not authorized", and leave the store as it
    was, both when no product has that id and when the product exists but is
    not the seller's own; the answer is never 403. *)
Theorem seller_foreign_product_not_found :
  forall (S : User.t) (product_id : Z) (product_update : ProductBase.t)
         (db : DB),
    User.role S = "seller" ->
    (find (fun p => Product.id p =? product_id) (products db) = None
     \/ exists p,
          find (fun p => Product.id p =? product_id) (products db) = Some p
          /\ Product.seller_id p <> Some (User.id S)) ->
    seller_update_product product_id product_update S db
    = (Raise (HTTPException 404 "Product not found or not authorized"), db)
    /\ seller_delete_product product_id S db
       = (Raise (HTTPException 404 "Product not found or not authorized"), db).
Proof.
  intros S product_id product_update db Hrole Hcase.
  unfold seller_update_product, seller_delete_product, bind.
  rewrite (seller_passes_guard S db Hrole).
  unfold crud.update_product, crud.delete_product.
  rewrite Hrole. simpl String.eqb.
  destruct Hcase as [Hnone | [p [Hsome Hother]]].
  - rewrite Hnone. now split.
  - rewrite Hsome, (not_owned_by _ _ Hother). now split.
Qed.

Lemma seller_foreign_product_not_found_witness :
  User.role tess = "seller"
  /\ (exists p,
        find (fun p => Product.id p =? 7) (products shop_db) = Some p
        /\ Product.seller_id p <> Some (User.id tess))
  /\ seller_update_product 7 (ProductBase.mk "quill" 300 1 None) tess shop_db
     = seller_update_product 8 (ProductBase.mk "quill" 300 1 None) tess shop_db.
Proof.
  assert (Hrole : User.role tess = "seller") by reflexivity.
  assert (Hforeign : exists p,
            find (fun p => Product.id p =? 7) (products shop_db) = Some p
            /\ Product.seller_id p <> Some (User.id tess)).
  { eexists. split; [reflexivity|]. simpl. discriminate. }
  split; [exact Hrole|]. split; [exact Hforeign|].
  rewrite (proj1 (seller_foreign_product_not_found tess 7
                    (ProductBase.mk "quill" 300 1 None) shop_db
                    Hrole (or_intror Hforeign))).
  rewrite (proj1 (seller_foreign_product_not_found tess 8
                    (ProductBase.mk "quill" 300 1 None) shop_db
                    Hrole (or_introl eq_refl))).
  reflexivity.
Defined.

(** ** C7: registering an email twice *)

Lemma find_email_hit (email : string) (l : list User.t) :
  (exists u, In u l /\ User.email u = email) ->
  exists v, find (fun u => String.eqb (User.email u) email) l = Some v.
Proof.
  intros [u [Hin Hu]].
  destruct (find (fun u => String.eqb (User.email u) email) l) as [v|] eqn:Hf.
  - now exists v.
  - exfalso. apply (find_none _ _ Hf) in Hin.
    apply String.eqb_neq in Hin. contradiction.
Qed.

Lemma find_email_miss (email : string) (l : list User.t) :
  (forall u, In u l -> User.email u <> email) ->
  find (fun u => String.eqb (User.email u) email) l = None.
Proof.
  intro Hall. induction l as [|x l IH]; [reflexivity|]. simpl.
  destruct (String.eqb (User.email x) email) eqn:Hx.
  - apply String.eqb_eq in Hx. exfalso. apply (Hall x); [now left|exact Hx].
  - apply IH. intros u Hu. apply Hall. now right.
Qed.

(** C7. POST /users/ with an email some stored user already has answers 400
    and leaves the stored users as they were; with an email nobody has, it
    stores exactly one new user, with role customer and the hash of the
    submitted password; and it never makes two users share an email. *)
Theorem create_user_rejects_registered_email `{CryptContext} :
  forall (user : UserCreate.t) (db : DB),
    ((exists u, In u (users db) /\ User.email u = UserCreate.email user) ->
     create_user user db
     = (Raise (HTTPException 400 "Email already registered"), db))
    /\ ((forall u, In u (users db) -> User.email u <> UserCreate.email user) ->
        exists u,
          create_user user db = (Ok u, set_users (users db ++ [u]) db)
          /\ User.email u = UserCreate.email user
          /\ User.role u = "customer"
          /\ User.password u = pwd_hash (UserCreate.password user))
    /\ (emails_unique db -> emails_unique (snd (create_user user db))).
Proof.
  intros user db.
  unfold create_user, bind, crud.get_user_by_email, query, crud.create_user.
  split; [|split].
  - intro Hdup. destruct (find_email_hit _ _ Hdup) as [v ->]. reflexivity.
  - intro Hnew. rewrite (find_email_miss _ _ Hnew).
    eexists. split; [reflexivity|]. now repeat split.
  - intro Huniq.
    destruct (find (fun u => String.eqb (User.email u) (UserCreate.email user))
                   (users db)) as [v|] eqn:Hf; [exact Huniq|].
    unfold emails_unique. simpl. rewrite map_app. simpl.
    apply NoDup_app; [exact Huniq | repeat constructor; simpl; tauto |].
    intros e Hin [<-|[]].
    apply in_map_iff in Hin as [u [Hu Hin]].
    apply (find_none _ _ Hf) in Hin. apply String.eqb_neq in Hin.
    contradiction.
Qed.

Lemma create_user_rejects_registered_email_witness :
  ((exists u, In u (users shop_db)
              /\ User.email u
                 = UserCreate.email (UserCreate.mk "bob@example.com" "plum"))
   /\ @create_user tagged_crypt (UserCreate.mk "bob@example.com" "plum") shop_db
      = (Raise (HTTPException 400 "Email already registered"), shop_db))
  /\ ((forall u, In u (users shop_db) ->
                 User.email u
                 <> UserCreate.email (UserCreate.mk "zoe@example.com" "plum"))
      /\ exists u,
           @create_user tagged_crypt (UserCreate.mk "zoe@example.com" "plum")
                        shop_db
           = (Ok u, set_users (users shop_db ++ [u]) shop_db)
           /\ User.role u = "customer"
           /\ User.password u = "hashed:plum")
  /\ (emails_unique shop_db
      /\ emails_unique
           (snd (@create_user tagged_crypt
                   (UserCreate.mk "zoe@example.com" "plum") shop_db))).
Proof.
  assert (Hdup : exists u, In u (users shop_db)
            /\ User.email u
               = UserCreate.email (UserCreate.mk "bob@example.com" "plum")).
  { exists bob. split; [simpl; tauto | reflexivity]. }
  assert (Hnew : forall u, In u (users shop_db) ->
            User.email u
            <> UserCreate.email (UserCreate.mk "zoe@example.com" "plum")).
  { intros u Hu. simpl in Hu.
    repeat (destruct Hu as [<-|Hu]; [simpl; discriminate|]). destruct Hu. }
  assert (Huniq : emails_unique shop_db).
  { unfold emails_unique. simpl.
    repeat (constructor; [simpl; intuition discriminate|]). constructor. }
  split; [|split].
  - split; [exact Hdup|].
    exact (proj1 (@create_user_rejects_registered_email tagged_crypt
                    (UserCreate.mk "bob@example.com" "plum") shop_db) Hdup).
  - split; [exact Hnew|].
    destruct (proj1 (proj2 (@create_user_rejects_registered_email tagged_crypt
                (UserCreate.mk "zoe@example.com" "plum") shop_db)) Hnew)
      as [u [Hrun [_ [Hrole Hpw]]]].
    exists u. split; [exact Hrun|]. split; [exact Hrole|exact Hpw].
  - split; [exact Huniq|].
    exact (proj2 (proj2 (@create_user_rejects_registered_email tagged_crypt
                    (UserCreate.mk "zoe@example.com" "plum") shop_db)) Huniq).
Defined.

(** ** C8: logging in *)

(** With distinct emails, looking a stored user up by email finds that user. *)
Lemma find_email_unique (l : list User.t) (u : User.t) :
  NoDup (map User.email l) -> In u l ->
  find (fun v => String.eqb (User.email v) (User.email u)) l = Some u.
Proof.
  induction l as [|x l IH]; simpl; [tauto|].
  intros Hnd Hin. apply NoDup_cons_iff in Hnd as [Hx Hnd].
  destruct Hin as [->|Hin].
  - now rewrite String.eqb_refl.
  - destruct (String.eqb (User.email x) (User.email u)) eqn:Hxu.
    + apply String.eqb_eq in Hxu. exfalso. apply Hx. rewrite Hxu.
      now apply in_map.
    + now apply IH.
Qed.

(** C8. POST /login with the email of a stored user and a password that
    verifies against the stored hash answers a bearer token carrying that
    user's id, email and role and expiring 60 minutes after issuance; with a
    password that does not verify, or with an email nobody has, it answers
    401. *)
Theorem login_issues_token_of_stored_user `{CryptContext} :
  forall (db : DB) (password : string) (now : Z),
    (forall u,
        emails_unique db -> In u (users db) ->
        (crud.verify_password password (User.password u) = true ->
         exists token,
           login (User.email u) password now db = (Ok token, db)
           /\ Token.token_type token = "bearer"
           /\ AccessToken.user_id (Token.access_token token) = User.id u
           /\ AccessToken.email (Token.access_token token) = User.email u
           /\ AccessToken.role (Token.access_token token) = User.role u
           /\ AccessToken.exp (Token.access_token token) = now + 60 * 60)
        /\ (crud.verify_password password (User.password u) = false ->
            login (User.email u) password now db
            = (Raise (HTTPException 401 "Incorrect email or password"), db)))
    /\ (forall email,
           (forall u, In u (users db) -> User.email u <> email) ->
           login email password now db
           = (Raise (HTTPException 401 "Incorrect email or password"), db)).
Proof.
  intros db password now.
  unfold login, bind, crud.get_user_by_email, query.
  split.
  - intros u Huniq Hin. rewrite (find_email_unique _ _ Huniq Hin).
    split; intros ->; simpl.
    + eexists. split; [reflexivity|]. simpl. repeat split.
    + reflexivity.
  - intros email Hnone. now rewrite (find_email_miss _ _ Hnone).
Qed.

Lemma login_issues_token_of_stored_user_witness :
  emails_unique shop_db
  /\ In alice (users shop_db)
  /\ (@crud.verify_password tagged_crypt "apple" (User.password alice) = true
      /\ exists token,
           @login tagged_crypt "alice@example.com" "apple" 1000 shop_db
           = (Ok token, shop_db)
           /\ AccessToken.user_id (Token.access_token token) = 1
           /\ AccessToken.exp (Token.access_token token) = 4600)
  /\ (@crud.verify_password tagged_crypt "pear" (User.password alice) = false
      /\ @login tagged_crypt "alice@example.com" "pear" 1000 shop_db
         = (Raise (HTTPException 401 "Incorrect email or password"), shop_db))
  /\ ((forall u, In u (users shop_db) -> User.email u <> "zoe@example.com")
      /\ @login tagged_crypt "zoe@example.com" "apple" 1000 shop_db
         = (Raise (HTTPException 401 "Incorrect email or password"), shop_db)).
Proof.
  assert (Huniq : emails_unique shop_db).
  { unfold emails_unique. simpl.
    repeat (constructor; [simpl; intuition discriminate|]). constructor. }
  assert (Hin : In alice (users shop_db)) by (simpl; tauto).
  assert (Hpw : @crud.verify_password tagged_crypt "apple" (User.password alice)
                = true) by reflexivity.
  assert (Hbad : @crud.verify_password tagged_crypt "pear" (User.password alice)
                 = false) by reflexivity.
  assert (Hnone : forall u, In u (users shop_db) ->
                            User.email u <> "zoe@example.com").
  { intros u Hu. simpl in Hu.
    repeat (destruct Hu as [<-|Hu]; [simpl; discriminate|]). destruct Hu. }
  split; [exact Huniq|]. split; [exact Hin|]. split; [|split].
  - split; [exact Hpw|].
    destruct (proj1 (proj1 (@login_issues_token_of_stored_user tagged_crypt
                              shop_db "apple" 1000) alice Huniq Hin) Hpw)
      as [token [Hlogin [_ [Hid [_ [_ Hexp]]]]]].
    exists token. split; [exact Hlogin|]. split; [exact Hid|exact Hexp].
  - split; [exact Hbad|].
    exact (proj2 (proj1 (@login_issues_token_of_stored_user tagged_crypt
                           shop_db "pear" 1000) alice Huniq Hin) Hbad).
  - split; [exact Hnone|].
    exact (proj2 (@login_issues_token_of_stored_user tagged_crypt
                    shop_db "apple" 1000) "zoe@example.com" Hnone).
Defined.

(** ** C9: who owns a new product *)

(** Whichever way [crud.create_product] settles the owner, a product a
    seller creates is the seller's own: [main.py] puts the seller's id both
    in the body and in the argument. *)
Lemma create_product_by_seller `{SellerIdPolicy} :
  forall (product : ProductBase.t) (current_user : User.t) (db : DB),
    User.role current_user = "seller" ->
    exists p,
      create_product product current_user db
      = (Ok p, set_products (products db ++ [p]) db)
      /\ Product.seller_id p = Some (User.id current_user).
Proof.
  intros product cu db Hrole. unfold create_product, crud.create_product.
  rewrite Hrole. simpl String.eqb. cbv iota.
  eexists. split; [reflexivity|]. simpl. apply stored_seller_id_agree.
Qed.

(** For a requester who is not a seller the argument is [None] and the body
    is handed on as it came, so the owner that is stored is whatever
    [crud.create_product] makes of the two. *)
Lemma create_product_by_other `{SellerIdPolicy} :
  forall (product : ProductBase.t) (current_user : User.t) (db : DB),
    User.role current_user <> "seller" ->
    exists p,
      create_product product current_user db
      = (Ok p, set_products (products db ++ [p]) db)
      /\ Product.seller_id p
         = stored_seller_id (ProductBase.seller_id product) None.
Proof.
  intros product cu db Hrole. unfold create_product, crud.create_product.
  apply String.eqb_neq in Hrole. rewrite Hrole.
  eexists. split; reflexivity.
Qed.

(** bob, a customer, posts a product whose body names seller 4: the product
    is stored without an owner if the argument wins, and as seller 4's if
    the body wins. *)
Lemma create_product_by_other_is_open :
  fst (@create_product keyword_wins (ProductBase.mk "ink" 450 1 (Some 4))
         bob shop_db)
  = Ok (Product.mk 8 "ink" 450 1 None)
  /\ fst (@create_product body_wins (ProductBase.mk "ink" 450 1 (Some 4))
            bob shop_db)
     = Ok (Product.mk 8 "ink" 450 1 (Some 4)).
Proof. split; reflexivity. Qed.

(** ** C1: an order is the snapshot of the cart *)

Lemma snapshot_lines (order_id base : Z) (lines : list CartItem.t) :
  map order_line (crud.snapshot order_id base lines) = map cart_line lines.
Proof.
  revert base. induction lines as [|i lines IH]; intro base; simpl.
  - reflexivity.
  - now rewrite IH.
Qed.

Lemma snapshot_kept (order_id base : Z) (lines : list CartItem.t) :
  filter (fun i => OrderItem.order_id i =? order_id)
         (crud.snapshot order_id base lines)
  = crud.snapshot order_id base lines.
Proof.
  revert base. induction lines as [|i lines IH]; intro base; simpl.
  - reflexivity.
  - now rewrite Z.eqb_refl, IH.
Qed.

Lemma no_lines_of_fresh_order (db : DB) :
  order_items_wf db ->
  filter (fun i => OrderItem.order_id i =? next_id (map Order.id (orders db)))
         (order_items db) = [].
Proof.
  intro Hwf. unfold order_items_wf in Hwf.
  induction (order_items db) as [|i l IH]; [reflexivity|]. simpl.
  destruct (OrderItem.order_id i =? next_id (map Order.id (orders db))) eqn:Hi.
  - apply Z.eqb_eq in Hi. exfalso.
    apply (next_id_fresh (map Order.id (orders db))).
    rewrite <- Hi. apply Hwf. now left.
  - apply IH. intros j Hj. apply Hwf. now right.
Qed.

Lemma cleared_cart_has_no_lines (cart_id : Z) (l : list CartItem.t) :
  filter (fun i => CartItem.cart_id i =? cart_id)
         (filter (fun i => negb (CartItem.cart_id i =? cart_id)) l) = [].
Proof.
  induction l as [|i l IH]; [reflexivity|]. simpl.
  destruct (CartItem.cart_id i =? cart_id) eqn:Hi; simpl; [exact IH|].
  now rewrite Hi.
Qed.

(** When a user places an order for themselves from a non-empty cart,
    POST /orders/ stores one new order for that user whose lines are, line by
    line, the products and quantities the cart held at that moment, and the
    cart is left empty; when the user's cart is empty or absent it answers
    400 and stores nothing. *)
Lemma order_is_cart_snapshot :
  forall (current_user : User.t) (db : DB),
    (order_items_wf db ->
     user_cart_lines (User.id current_user) db <> [] ->
     exists order db',
       create_order_from_cart (User.id current_user) current_user db
       = (Ok order, db')
       /\ Order.user_id order = User.id current_user
       /\ Order.status order = "placed"
       /\ orders db' = (orders db ++ [order])%list
       /\ map order_line (crud.order_lines (Order.id order) db')
          = map cart_line (user_cart_lines (User.id current_user) db)
       /\ user_cart_lines (User.id current_user) db' = [])
    /\ (user_cart_lines (User.id current_user) db = [] ->
        create_order_from_cart (User.id current_user) current_user db
        = (Raise (HTTPException 400 "Cart is empty"), db)).
Proof.
  intros cu db.
  unfold create_order_from_cart. rewrite (owner_accepted cu).
  unfold crud.create_order_from_cart_for_user, user_cart_lines.
  destruct (find (fun c => Cart.user_id c =? User.id cu) (carts db))
    as [cart|] eqn:Hcart.
  - destruct (crud.cart_lines (Cart.id cart) db) as [|i lines] eqn:Hlines.
    + split; [intros _ Hne; now elim Hne | reflexivity].
    + split; [|discriminate]. intros Hwf _.
      eexists. eexists. split; [reflexivity|]. simpl.
      split; [reflexivity|]. split; [reflexivity|]. split; [reflexivity|].
      split.
      * unfold crud.order_lines. simpl order_items.
        rewrite filter_app, (no_lines_of_fresh_order db Hwf). simpl app.
        rewrite Z.eqb_refl, snapshot_kept. simpl map.
        now rewrite snapshot_lines.
      * rewrite Hcart. unfold crud.cart_lines. simpl cart_items.
        apply cleared_cart_has_no_lines.
  - split; [intros _ Hne; now elim Hne | reflexivity].
Qed.

Lemma order_is_cart_snapshot_witness :
  (order_items_wf shop_db
   /\ user_cart_lines (User.id alice) shop_db <> []
   /\ exists order db',
        create_order_from_cart (User.id alice) alice shop_db = (Ok order, db')
        /\ map order_line (crud.order_lines (Order.id order) db') = [(7, 2)]
        /\ user_cart_lines (User.id alice) db' = [])
  /\ (user_cart_lines (User.id bob) shop_db = []
      /\ create_order_from_cart (User.id bob) bob shop_db
         = (Raise (HTTPException 400 "Cart is empty"), shop_db)).
Proof.
  assert (Hwf : order_items_wf shop_db) by (intros i Hi; destruct Hi).
  assert (Hne : user_cart_lines (User.id alice) shop_db <> [])
    by (simpl; discriminate).
  assert (Hnil : user_cart_lines (User.id bob) shop_db = []) by reflexivity.
  split.
  - split; [exact Hwf|]. split; [exact Hne|].
    destruct (proj1 (order_is_cart_snapshot alice shop_db) Hwf Hne)
      as [order [db' [Hrun [_ [_ [_ [Hlines Hempty]]]]]]].
    exists order, db'.
    split; [exact Hrun|]. split; [exact Hlines|exact Hempty].
  - split; [exact Hnil|].
    exact (proj2 (order_is_cart_snapshot bob shop_db) Hnil).
Defined.

(** C1 (violated by the handler). root, an admin with nine pens in a cart
    of their own, sends POST /orders/ for alice, whose cart holds two pens,
    and for bob, who has no cart.  Both requests succeed and store an order
    owned by root whose line is root's nine pens: the order for alice does
    not carry her two pens and her cart is not emptied, and an order is
    created although bob's cart is absent. *)
Theorem admin_order_takes_own_cart :
  User.role root = "admin"
  /\ map cart_line (user_cart_lines 1 busy_db) = [(7, 2)]
  /\ (exists db',
        create_order_from_cart 1 root busy_db
        = (Ok (Order.mk 1 3 "placed"), db')
        /\ map order_line (crud.order_lines 1 db') = [(7, 9)]
        /\ map cart_line (user_cart_lines 1 db') = [(7, 2)]
        /\ user_cart_lines 3 db' = [])
  /\ user_cart_lines 2 busy_db = []
  /\ (exists db',
        create_order_from_cart 2 root busy_db
        = (Ok (Order.mk 1 3 "placed"), db')
        /\ orders busy_db = []
        /\ orders db' = [Order.mk 1 3 "placed"]).
Proof.
  split; [reflexivity|]. split; [reflexivity|].
  split; [eexists; split; [reflexivity|repeat split]|].
  split; [reflexivity|].
  eexists. split; [reflexivity|]. split; reflexivity.
Qed.

(** ** C4: one line per product in a cart *)

Lemma key_injective {R} (key : R -> Z) (l : list R) (x y : R) :
  NoDup (map key l) -> In x l -> In y l -> key x = key y -> x = y.
Proof.
  induction l as [|a l IH]; simpl; [tauto|].
  intros Hnd Hx Hy Hxy. apply NoDup_cons_iff in Hnd as [Ha Hnd].
  destruct Hx as [->|Hx], Hy as [->|Hy]; auto.
  - exfalso. apply Ha. rewrite Hxy. now apply in_map.
  - exfalso. apply Ha. rewrite <- Hxy. now apply in_map.
Qed.

(** Overwriting the row of a key by a row that agrees with it under [f]
    leaves the [f]-column of the table as it was. *)
Lemma replace_row_column {R B} (key : R -> Z) (f : R -> B)
      (row old : R) (l : list R) :
  NoDup (map key l) -> In old l -> key row = key old -> f row = f old ->
  map f (crud.replace_row key row l) = map f l.
Proof.
  intros Hnd Hold Hkey Hf. unfold crud.replace_row. rewrite map_map.
  apply map_ext_in. intros x Hx.
  destruct (key x =? key row) eqn:Hxk; [|reflexivity].
  apply Z.eqb_eq in Hxk.
  assert (x = old) as -> by (apply (key_injective key l); congruence).
  exact Hf.
Qed.

(** The first row satisfying [P] is still the first one after it has been
    overwritten, by key, with another row satisfying [P]. *)
Lemma replace_row_first {R} (key : R -> Z) (P : R -> bool)
      (row old : R) (l : list R) :
  find P l = Some old -> key row = key old -> P row = true ->
  find P (crud.replace_row key row l) = Some row.
Proof.
  intros Hf Hkey HP. unfold crud.replace_row.
  induction l as [|x l IH]; simpl in *; [discriminate|].
  destruct (P x) eqn:HPx.
  - injection Hf as ->. rewrite Hkey, Z.eqb_refl. now rewrite HP.
  - destruct (key x =? key row); [now rewrite HP|].
    rewrite HPx. now apply IH.
Qed.

Lemma find_app_miss {R} (P : R -> bool) (l : list R) (x : R) :
  find P l = None -> P x = true -> find P (l ++ [x]) = Some x.
Proof.
  intros Hnone HP. induction l as [|a l IH]; simpl in *; [now rewrite HP|].
  destruct (P a); [discriminate|]. now apply IH.
Qed.

Lemma same_line_key (c p : Z) (i : CartItem.t) :
  crud.same_line c p i = true <-> line_key i = (c, p).
Proof.
  unfold crud.same_line, line_key. rewrite andb_true_iff, !Z.eqb_eq.
  split; [intros [-> ->]; reflexivity | intro Hk; now injection Hk].
Qed.





(** After [crud.add_cart_item] the first line of the cart for the product
    is the one it returns, and the carts are as before. *)
Lemma add_cart_item_lands (c : Z) (item : CartItemBase.t) (db : DB) :
  exists row db1,
    crud.add_cart_item c item db = (Ok row, db1)
    /\ carts db1 = carts db
    /\ find (crud.same_line c (CartItemBase.product_id item)) (cart_items db1)
       = Some row.
Proof.
  unfold crud.add_cart_item.
  destruct (find (crud.same_line c (CartItemBase.product_id item))
                 (cart_items db)) as [old|] eqn:Hfind.
  - eexists. eexists. split; [reflexivity|]. split; [reflexivity|]. simpl.
    apply replace_row_first with (old := old); [exact Hfind|reflexivity|].
    apply find_some in Hfind as [_ Hline]. exact Hline.
  - eexists. eexists. split; [reflexivity|]. split; [reflexivity|]. simpl.
    apply find_app_miss; [exact Hfind|].
    unfold crud.same_line. simpl. now rewrite !Z.eqb_refl.
Qed.






(** ** C2: what a rejected request leaves behind *)

(** The three handlers call the writing [crud] function before they look at
    the owner, whoever asks. *)
Lemma update_cart_item_writes_first (cart_item_id quantity : Z)
      (current_user : User.t) (db : DB) :
  snd (update_cart_item cart_item_id quantity current_user db)
  = snd (crud.update_cart_item cart_item_id quantity db).
Proof.
  unfold update_cart_item, bind, CartItem_cart.
  destruct (crud.update_cart_item cart_item_id quantity db) as [[[item|]|e] db'];
    try reflexivity.
  destruct (find (fun i => CartItem.id i =? CartItem.id item) (cart_items db'));
    try reflexivity.
  destruct (find (fun c => Cart.id c =? CartItem.cart_id item) (carts db'))
    as [cart|]; try reflexivity.
  destruct (Z_ne (Cart.user_id cart) (User.id current_user)
            && str_ne (User.role current_user) "admin"); reflexivity.
Qed.

Lemma find_deleted {R} (key : R -> Z) (k : Z) (l : list R) :
  find (fun r => key r =? k) (crud.delete_row key k l) = None.
Proof.
  unfold crud.delete_row. induction l as [|x l IH]; [reflexivity|]. simpl.
  destruct (key x =? k) eqn:Hx; simpl; [exact IH|]. now rewrite Hx.
Qed.

(** DELETE /cart/items/{id} for a stored line: the line is deleted, and
    reading the cart of the deleted row then fails, whoever asks. *)
Lemma delete_cart_item_of_stored_line (cart_item_id : Z) (current_user : User.t)
      (item : CartItem.t) (db : DB) :
  find (fun i => CartItem.id i =? cart_item_id) (cart_items db) = Some item ->
  delete_cart_item cart_item_id current_user db
  = (Raise DetachedInstanceError,
     set_cart_items (crud.delete_row CartItem.id cart_item_id (cart_items db))
                    db).
Proof.
  intro Hitem. destruct (find_some _ _ Hitem) as [_ Hid].
  apply Z.eqb_eq in Hid.
  unfold delete_cart_item, bind, crud.remove_cart_item, CartItem_cart, query.
  rewrite Hitem. cbn [cart_items set_cart_items]. rewrite Hid.
  now rewrite find_deleted.
Qed.

Lemma delete_cart_item_writes_first (cart_item_id : Z) (current_user : User.t)
      (db : DB) :
  snd (delete_cart_item cart_item_id current_user db)
  = snd (crud.remove_cart_item cart_item_id db).
Proof.
  destruct (find (fun i => CartItem.id i =? cart_item_id) (cart_items db))
    as [item|] eqn:Hitem.
  - rewrite (delete_cart_item_of_stored_line _ current_user _ _ Hitem).
    unfold crud.remove_cart_item. now rewrite Hitem.
  - unfold delete_cart_item, bind, crud.remove_cart_item. now rewrite Hitem.
Qed.

Lemma remove_wishlist_writes_first (wishlist_id : Z) (current_user : User.t)
      (db : DB) :
  snd (remove_wishlist_endpoint wishlist_id current_user db)
  = snd (crud.remove_from_wishlist wishlist_id db).
Proof.
  unfold remove_wishlist_endpoint, bind.
  destruct (crud.remove_from_wishlist wishlist_id db) as [[[item|]|e] db'];
    try reflexivity.
  destruct (Z_ne (Wishlist.user_id item) (User.id current_user)
            && str_ne (User.role current_user) "admin"); reflexivity.
Qed.

(** C2 (violated by the handlers). bob, a customer, asks to change the
    quantity of alice's cart line, to delete it, and to delete her wishlist
    entry.  The first and the last request are answered 403 and the deletion
    of the line fails with 500, and yet the store each leaves behind has the
    quantity changed from 2 to 5, the cart line gone, and the wishlist entry
    gone. *)
Theorem forbidden_requests_still_write :
  (fst (update_cart_item 1 5 bob shop_db)
   = Raise (HTTPException 403 "Not allowed to modify this item")
   /\ map CartItem.quantity (cart_items shop_db) = [2]
   /\ map CartItem.quantity (cart_items (snd (update_cart_item 1 5 bob shop_db)))
      = [5])
  /\ (fst (delete_cart_item 1 bob shop_db) = Raise DetachedInstanceError
      /\ cart_items shop_db = [CartItem.mk 1 1 7 2]
      /\ cart_items (snd (delete_cart_item 1 bob shop_db)) = [])
  /\ (fst (remove_wishlist_endpoint 1 bob shop_db)
      = Raise (HTTPException 403 "Not allowed")
      /\ wishlist shop_db = [Wishlist.mk 1 1 7]
      /\ wishlist (snd (remove_wishlist_endpoint 1 bob shop_db)) = []).
Proof.
  repeat split.
Qed.

(** ** C3: an admin acting for another user *)

(** Past the ownership check the cart and order handlers never look at the
    user the request names: they answer as if the admin had named
    themselves. *)
Lemma admin_target_ignored (A : User.t) (u : Z) (item : CartItemBase.t)
      (db : DB) :
  User.role A = "admin" ->
  get_cart u A db = get_cart (User.id A) A db
  /\ add_item_to_cart u item A db = add_item_to_cart (User.id A) item A db
  /\ create_order_from_cart u A db = create_order_from_cart (User.id A) A db
  /\ get_orders u A db = get_orders (User.id A) A db.
Proof.
  intro Hrole.
  unfold get_cart, add_item_to_cart, create_order_from_cart, get_orders.
  rewrite (owner_accepted A). unfold str_ne. rewrite Hrole. simpl String.eqb.
  simpl negb. rewrite !andb_false_r. repeat split.
Qed.

(** C3 (violated by the handlers). root, an admin, names alice (id 1) in
    GET /cart/1, POST /orders/?user_id=1 and GET /orders/1.  alice has a
    cart with one line; root has none.  GET /cart/1 creates and returns a
    cart owned by root, POST /orders/ answers 400 for an empty cart, and
    after alice has placed her order GET /orders/1 lists nothing. *)
Theorem admin_requests_hit_own_resources :
  crud.get_cart 1 shop_db = (Ok (Some (Cart.mk 1 1)), shop_db)
  /\ get_cart 1 root shop_db
     = (Ok (Cart.mk 2 3), set_carts [Cart.mk 1 1; Cart.mk 2 3] shop_db)
  /\ map cart_line (user_cart_lines 1 shop_db) = [(7, 2)]
  /\ create_order_from_cart 1 root shop_db
     = (Raise (HTTPException 400 "Cart is empty"), shop_db)
  /\ fst (crud.get_orders 1 (snd (create_order_from_cart 1 alice shop_db)))
     = Ok [Order.mk 1 1 "placed"]
  /\ fst (get_orders 1 root (snd (create_order_from_cart 1 alice shop_db)))
     = Ok [].
Proof.
  repeat split.
Qed.

(** ** C5: the ownership rule on writes *)

(** On every writing route but DELETE /cart/items/{id}, a requester who is
    not an admin and writes to a user, address, cart, cart line, order or
    wishlist entry owned by another user is answered 403 Forbidden. *)
Lemma stranger_write_forbidden_elsewhere `{CryptContext} :
  forall (m : Mutation) (N : User.t) (db : DB) (owner : Z),
    (forall i, m <> DELETE_cart_items i) ->
    resource_owner m db = Some owner ->
    owner <> User.id N ->
    User.role N <> "admin" ->
    fst (serve m N db) = 403.
Proof.
  intros m N db owner Hroute Hown Hid Hrole.
  destruct (stranger_rejected _ _ Hid Hrole) as [Hg1 Hg2].
  destruct m; simpl in Hown; unfold serve, respond.
  - injection Hown as ->. unfold update_user. now rewrite Hg1.
  - injection Hown as ->. unfold delete_user. now rewrite Hg1.
  - unfold admin_update_user_role, auth.get_current_admin, bind.
    now rewrite (str_ne_true _ _ Hrole).
  - injection Hown as ->. unfold add_address. now rewrite Hg1.
  - injection Hown as ->. unfold update_address. now rewrite Hg1.
  - injection Hown as ->. unfold get_cart. now rewrite Hg2.
  - injection Hown as ->. unfold add_item_to_cart. now rewrite Hg2.
  - unfold cart_item_owner in Hown.
    destruct (find (fun i => CartItem.id i =? cart_item_id) (cart_items db))
      as [item|] eqn:Hitem; [|discriminate].
    destruct (find (fun c => Cart.id c =? CartItem.cart_id item) (carts db))
      as [cart|] eqn:Hcart; [|discriminate].
    injection Hown as <-.
    destruct (find_some _ _ Hitem) as [_ Hi].
    unfold update_cart_item, bind, crud.update_cart_item, CartItem_cart.
    rewrite Hitem. cbn [cart_items carts set_cart_items CartItem.id
                          CartItem.cart_id].
    rewrite (replace_row_first CartItem.id
               (fun i => CartItem.id i =? CartItem.id item) _ item);
      [| apply Z.eqb_eq in Hi; rewrite Hi; exact Hitem
       | reflexivity | simpl; apply Z.eqb_refl].
    now rewrite Hcart, Hg1.
  - exfalso. now apply (Hroute cart_item_id).
  - injection Hown as ->. unfold create_order_from_cart. now rewrite Hg1.
  - destruct (find (fun e => Wishlist.id e =? wishlist_id) (wishlist db))
      as [entry|] eqn:Hentry; [|discriminate].
    injection Hown as <-.
    unfold remove_wishlist_endpoint, bind, crud.remove_from_wishlist.
    rewrite Hentry, Hg1. reflexivity.
Qed.

(** C5 (violated by the handler of DELETE /cart/items/{id}). bob, a
    customer, asks to delete the cart line 1, which is in alice's cart.  The
    request is not answered 403: the handler deletes the line, then fails
    reading the cart of the deleted row, and answers 500. *)
Theorem stranger_delete_answers_500 :
  resource_owner (DELETE_cart_items 1) shop_db = Some (User.id alice)
  /\ User.id alice <> User.id bob
  /\ User.role bob = "customer"
  /\ delete_cart_item 1 bob shop_db
     = (Raise DetachedInstanceError, set_cart_items [] shop_db)
  /\ @serve tagged_crypt (DELETE_cart_items 1) bob shop_db
     = (500, set_cart_items [] shop_db).
Proof.
  split; [reflexivity|]. split; [simpl; lia|]. repeat split.
Qed.

(** * Further properties of the handlers *)

(** ** Lookups after a write *)

Lemma find_fresh_id {R} (key : R -> Z) (l : list R) :
  find (fun r => key r =? next_id (map key l)) l = None.
Proof.
  destruct (find (fun r => key r =? next_id (map key l)) l) as [r|] eqn:Hf;
    [|reflexivity].
  apply find_some in Hf as [Hin Hk]. apply Z.eqb_eq in Hk.
  exfalso. apply (next_id_fresh (map key l)). rewrite <- Hk. now apply in_map.
Qed.

Lemma delete_row_fresh {R} (key : R -> Z) (l : list R) (x : R) :
  key x = next_id (map key l) ->
  crud.delete_row key (key x) (l ++ [x]) = l.
Proof.
  intro Hx. unfold crud.delete_row. rewrite filter_app. simpl.
  rewrite Z.eqb_refl. simpl. rewrite app_nil_r.
  apply forallb_filter_id. apply forallb_forall. intros r Hr.
  apply negb_true_iff, Z.eqb_neq. intro Hk.
  apply (next_id_fresh (map key l)). rewrite <- Hx, <- Hk. now apply in_map.
Qed.

Lemma column_injective {R B} (f : R -> B) (l : list R) (x y : R) :
  NoDup (map f l) -> In x l -> In y l -> f x = f y -> x = y.
Proof.
  induction l as [|a l IH]; simpl; [tauto|].
  intros Hnd Hx Hy Hxy. apply NoDup_cons_iff in Hnd as [Ha Hnd].
  destruct Hx as [->|Hx], Hy as [->|Hy]; auto.
  - exfalso. apply Ha. rewrite Hxy. now apply in_map.
  - exfalso. apply Ha. rewrite <- Hxy. now apply in_map.
Qed.

(** ** Users *)

(** X1. For a requester writing to their own record, PUT /users/{id} does
    exactly what the admin-only PUT /admin/users/{id}/role does for an admin
    with the same body, whenever that route accepts the role: same answer,
    same store. *)
Theorem self_update_is_role_route `{CryptContext} :
  forall (current_user admin : User.t) (update : UserUpdate.t) (db : DB),
    User.role admin = "admin" ->
    invalid_role (UserUpdate.role update) = false ->
    update_user (User.id current_user) update current_user db
    = admin_update_user_role (User.id current_user) update admin db.
Proof.
  intros cu admin update db Hadmin Hvalid.
  unfold update_user, admin_update_user_role, auth.get_current_admin.
  rewrite (owner_accepted cu). unfold str_ne. rewrite Hadmin.
  simpl negb. cbv iota. unfold bind at 2. unfold ret at 1.
  unfold bind. destruct (crud.get_user (User.id cu) db) as [[[stored|]|e] db'];
    try reflexivity.
  now rewrite Hvalid.
Qed.

Lemma self_update_is_role_route_witness :
  User.role root = "admin"
  /\ invalid_role (UserUpdate.role (UserUpdate.mk None None (Some "admin")))
     = false
  /\ fst (@update_user tagged_crypt 2 (UserUpdate.mk None None (Some "admin"))
            bob shop_db)
     = Ok (User.mk 2 "bob@example.com" "hashed:berry" "admin")
  /\ @update_user tagged_crypt (User.id bob)
       (UserUpdate.mk None None (Some "admin")) bob shop_db
     = @admin_update_user_role tagged_crypt (User.id bob)
         (UserUpdate.mk None None (Some "admin")) root shop_db.
Proof.
  assert (Hadmin : User.role root = "admin") by reflexivity.
  assert (Hvalid : invalid_role
                     (UserUpdate.role (UserUpdate.mk None None (Some "admin")))
                   = false) by reflexivity.
  split; [exact Hadmin|]. split; [exact Hvalid|]. split; [reflexivity|].
  exact (@self_update_is_role_route tagged_crypt bob root
           (UserUpdate.mk None None (Some "admin")) shop_db Hadmin Hvalid).
Defined.

(** X2. PUT /users/{id} checks no role: a stored user who sends a role in
    the body of an update of their own record gets that role, whatever it
    is, and it is the role a later lookup finds. *)
Theorem self_update_sets_role `{CryptContext} :
  forall (current_user stored : User.t) (update : UserUpdate.t) (r : string)
         (db : DB),
    find (fun u => User.id u =? User.id current_user) (users db) = Some stored ->
    UserUpdate.role update = Some r ->
    exists u' db',
      update_user (User.id current_user) update current_user db = (Ok u', db')
      /\ User.id u' = User.id current_user
      /\ User.role u' = r
      /\ crud.get_user (User.id current_user) db' = (Ok (Some u'), db').
Proof.
  intros cu stored update r db Hstored Hrole.
  unfold update_user. rewrite (owner_accepted cu).
  unfold bind, crud.get_user, query. rewrite Hstored.
  unfold crud.update_user. rewrite Hrole.
  destruct (find_some _ _ Hstored) as [_ Hid]. apply Z.eqb_eq in Hid.
  eexists. eexists. split; [reflexivity|]. simpl.
  split; [exact Hid|]. split; [reflexivity|]. f_equal. f_equal.
  apply replace_row_first with (old := stored);
    [exact Hstored | reflexivity | simpl; now apply Z.eqb_eq].
Qed.

Lemma self_update_sets_role_witness :
  find (fun u => User.id u =? User.id bob) (users shop_db) = Some bob
  /\ UserUpdate.role (UserUpdate.mk None None (Some "admin")) = Some "admin"
  /\ exists u' db',
       @update_user tagged_crypt (User.id bob)
         (UserUpdate.mk None None (Some "admin")) bob shop_db = (Ok u', db')
       /\ User.role u' = "admin"
       /\ crud.get_user (User.id bob) db' = (Ok (Some u'), db').
Proof.
  assert (Hstored : find (fun u => User.id u =? User.id bob) (users shop_db)
                    = Some bob) by reflexivity.
  assert (Hrole : UserUpdate.role (UserUpdate.mk None None (Some "admin"))
                  = Some "admin") by reflexivity.
  split; [exact Hstored|]. split; [exact Hrole|].
  destruct (@self_update_sets_role tagged_crypt bob bob
              (UserUpdate.mk None None (Some "admin")) "admin" shop_db
              Hstored Hrole) as [u' [db' [Hrun [_ [Hr Hget]]]]].
  exists u', db'. split; [exact Hrun|]. split; [exact Hr|exact Hget].
Defined.

Lemma invalid_role_spec (r : string) :
  invalid_role (Some r) = true
  <-> r <> "" /\ r <> "customer" /\ r <> "seller" /\ r <> "admin".
Proof.
  unfold invalid_role. simpl existsb.
  rewrite andb_true_iff, !negb_true_iff, !orb_false_iff, !String.eqb_neq.
  tauto.
Qed.

(** X3. On PUT /admin/users/{id}/role an admin is answered 404 for a user
    that is not stored, whatever the role in the body; for a stored user a
    role that is neither empty nor one of customer, seller, admin is answered
    400 with nothing written; the empty role is not rejected and goes to the
    update like an absent one. *)
Theorem role_route_validation `{CryptContext} :
  forall (admin : User.t) (user_id : Z) (update : UserUpdate.t) (db : DB),
    User.role admin = "admin" ->
    (find (fun u => User.id u =? user_id) (users db) = None ->
     admin_update_user_role user_id update admin db
     = (Raise (HTTPException 404 "User not found"), db))
    /\ (forall stored r,
           find (fun u => User.id u =? user_id) (users db) = Some stored ->
           UserUpdate.role update = Some r ->
           r <> "" -> r <> "customer" -> r <> "seller" -> r <> "admin" ->
           admin_update_user_role user_id update admin db
           = (Raise (HTTPException 400 "Invalid role"), db))
    /\ (forall stored,
           find (fun u => User.id u =? user_id) (users db) = Some stored ->
           UserUpdate.role update = Some "" \/ UserUpdate.role update = None ->
           admin_update_user_role user_id update admin db
           = crud.update_user stored update db).
Proof.
  intros admin user_id update db Hadmin.
  unfold admin_update_user_role, auth.get_current_admin, str_ne.
  rewrite Hadmin. simpl negb. cbv iota.
  unfold bind, ret, crud.get_user, query.
  split; [|split].
  - now intros ->.
  - intros stored r -> Hr H0 H1 H2 H3.
    assert (Hbad : invalid_role (Some r) = true)
      by (apply invalid_role_spec; tauto).
    now rewrite Hr, Hbad.
  - intros stored -> [Hr|Hr]; now rewrite Hr.
Qed.

Lemma role_route_validation_witness :
  User.role root = "admin"
  /\ find (fun u => User.id u =? 2) (users shop_db) = Some bob
  /\ @admin_update_user_role tagged_crypt 2
       (UserUpdate.mk None None (Some "owner")) root shop_db
     = (Raise (HTTPException 400 "Invalid role"), shop_db)
  /\ @admin_update_user_role tagged_crypt 9
       (UserUpdate.mk None None (Some "owner")) root shop_db
     = (Raise (HTTPException 404 "User not found"), shop_db)
  /\ @admin_update_user_role tagged_crypt 2
       (UserUpdate.mk None None (Some "")) root shop_db
     = @crud.update_user tagged_crypt bob (UserUpdate.mk None None (Some ""))
         shop_db.
Proof.
  assert (Hadmin : User.role root = "admin") by reflexivity.
  assert (Hbob : find (fun u => User.id u =? 2) (users shop_db) = Some bob)
    by reflexivity.
  assert (Hnone : find (fun u => User.id u =? 9) (users shop_db) = None)
    by reflexivity.
  split; [exact Hadmin|]. split; [exact Hbob|]. split; [|split].
  - refine (proj1 (proj2 (@role_route_validation tagged_crypt root 2
              (UserUpdate.mk None None (Some "owner")) shop_db Hadmin))
              bob "owner" Hbob eq_refl _ _ _ _); discriminate.
  - exact (proj1 (@role_route_validation tagged_crypt root 9
              (UserUpdate.mk None None (Some "owner")) shop_db Hadmin) Hnone).
  - exact (proj2 (proj2 (@role_route_validation tagged_crypt root 2
              (UserUpdate.mk None None (Some "")) shop_db Hadmin))
              bob Hbob (or_introl eq_refl)).
Defined.

(** X4. A user who has just registered can be read back under the id the
    registration answered. *)
Theorem register_then_read `{CryptContext} :
  forall (user : UserCreate.t) (u : User.t) (db db1 : DB),
    create_user user db = (Ok u, db1) ->
    read_user (User.id u) db1 = (Ok u, db1).
Proof.
  intros user u db db1. unfold create_user, bind, crud.get_user_by_email, query.
  destruct (find (fun v => String.eqb (User.email v) (UserCreate.email user))
                 (users db)); [discriminate|].
  unfold crud.create_user. intro Hrun. injection Hrun as <- <-.
  unfold read_user, bind, crud.get_user, query.
  cbn [users set_users User.id].
  rewrite find_app_miss;
    [reflexivity | apply (find_fresh_id User.id) | apply Z.eqb_refl].
Qed.

Lemma register_then_read_witness :
  exists u db1,
    @create_user tagged_crypt (UserCreate.mk "zoe@example.com" "plum") shop_db
    = (Ok u, db1)
    /\ User.id u = 6
    /\ read_user 6 db1 = (Ok u, db1).
Proof.
  eexists. eexists. split; [reflexivity|]. split; [reflexivity|].
  exact (@register_then_read tagged_crypt
           (UserCreate.mk "zoe@example.com" "plum") _ shop_db _ eq_refl).
Defined.

(** X5. A user who has just registered can log in with the email and
    password of the registration, provided the hashing context verifies that
    password against its own hash; the token carries the new user's id and
    the role customer. *)
Theorem register_then_login `{CryptContext} :
  forall (user : UserCreate.t) (u : User.t) (db db1 : DB) (now : Z),
    pwd_verify (UserCreate.password user) (pwd_hash (UserCreate.password user))
    = true ->
    create_user user db = (Ok u, db1) ->
    exists token,
      login (UserCreate.email user) (UserCreate.password user) now db1
      = (Ok token, db1)
      /\ AccessToken.user_id (Token.access_token token) = User.id u
      /\ AccessToken.email (Token.access_token token) = UserCreate.email user
      /\ AccessToken.role (Token.access_token token) = "customer".
Proof.
  intros user u db db1 now Hverify.
  unfold create_user, bind, crud.get_user_by_email, query.
  destruct (find (fun v => String.eqb (User.email v) (UserCreate.email user))
                 (users db)) eqn:Hfind; [discriminate|].
  unfold crud.create_user. intro Hrun. injection Hrun as <- <-.
  unfold login, bind, crud.get_user_by_email, query.
  cbn [users set_users].
  rewrite find_app_miss; [| exact Hfind | simpl; apply String.eqb_refl].
  unfold crud.verify_password. cbn [User.password]. rewrite Hverify. simpl.
  eexists. split; [reflexivity|]. simpl. repeat split.
Qed.

Lemma register_then_login_witness :
  @pwd_verify tagged_crypt "plum" (@pwd_hash tagged_crypt "plum") = true
  /\ exists u db1 token,
       @create_user tagged_crypt (UserCreate.mk "zoe@example.com" "plum") shop_db
       = (Ok u, db1)
       /\ @login tagged_crypt "zoe@example.com" "plum" 1000 db1
          = (Ok token, db1)
       /\ AccessToken.user_id (Token.access_token token) = 6.
Proof.
  assert (Hverify : @pwd_verify tagged_crypt "plum" (@pwd_hash tagged_crypt "plum")
                    = true) by reflexivity.
  split; [exact Hverify|].
  destruct (@register_then_login tagged_crypt
              (UserCreate.mk "zoe@example.com" "plum") _ shop_db _ 1000
              Hverify eq_refl) as [token [Hlogin [Hid _]]].
  eexists. eexists. exists token.
  split; [reflexivity|]. split; [exact Hlogin|exact Hid].
Defined.

Lemma delete_row_In {R} (key : R -> Z) (k : Z) (l : list R) (r : R) :
  In r (crud.delete_row key k l) -> In r l /\ key r <> k.
Proof.
  unfold crud.delete_row. intro Hin. apply filter_In in Hin as [Hin Hk].
  split; [exact Hin|]. now apply Z.eqb_neq, negb_true_iff.
Qed.

(** X6. Once DELETE /users/{id} has answered with the deleted user, the id
    reads as 404, deleting it again answers 404, and, emails being unique,
    nobody can log in under the deleted user's email any more. *)
Theorem deleted_user_is_gone `{CryptContext} :
  forall (user_id : Z) (current_user u : User.t) (db db1 : DB),
    delete_user user_id current_user db = (Ok u, db1) ->
    read_user user_id db1 = (Raise (HTTPException 404 "User not found"), db1)
    /\ delete_user user_id current_user db1
       = (Raise (HTTPException 404 "User not found"), db1)
    /\ (emails_unique db ->
        forall password now,
          login (User.email u) password now db1
          = (Raise (HTTPException 401 "Incorrect email or password"), db1)).
Proof.
  intros user_id cu u db db1. unfold delete_user.
  destruct (Z_ne user_id (User.id cu) && str_ne (User.role cu) "admin");
    [discriminate|].
  unfold bind, crud.del_user.
  destruct (find (fun v => User.id v =? user_id) (users db)) as [v|] eqn:Hfind;
    [|discriminate].
  intro Hrun. injection Hrun as <- <-.
  unfold read_user, bind, crud.get_user, query. cbn [users set_users].
  rewrite find_deleted. split; [reflexivity|]. split; [reflexivity|].
  intros Huniq password now.
  unfold login, bind, crud.get_user_by_email, query. cbn [users set_users].
  rewrite find_email_miss; [reflexivity|].
  intros w Hw Hemail. apply delete_row_In in Hw as [Hw Hid].
  apply find_some in Hfind as [Hv Hvid]. apply Z.eqb_eq in Hvid.
  assert (w = v) by (apply (column_injective User.email (users db)); assumption).
  congruence.
Qed.

Lemma deleted_user_is_gone_witness :
  exists db1,
    delete_user 2 bob shop_db = (Ok bob, db1)
    /\ read_user 2 db1 = (Raise (HTTPException 404 "User not found"), db1)
    /\ emails_unique shop_db
    /\ @login tagged_crypt "bob@example.com" "berry" 1000 db1
       = (Raise (HTTPException 401 "Incorrect email or password"), db1).
Proof.
  assert (Huniq : emails_unique shop_db).
  { unfold emails_unique. simpl.
    repeat (constructor; [simpl; intuition discriminate|]). constructor. }
  eexists. split; [reflexivity|].
  destruct (@deleted_user_is_gone tagged_crypt 2 bob bob shop_db _ eq_refl)
    as [Hread [_ Hlogin]].
  split; [exact Hread|]. split; [exact Huniq|].
  exact (Hlogin Huniq "berry" 1000).
Defined.

(** ** Addresses *)

(** X7. POST /addresses/{user_id}/update never answers its second 403,
    "Not authorized to update this address": whoever passes the first
    ownership test also passes the test on the address that is found. *)
Theorem update_address_second_check_never_fires :
  forall (user_id : Z) (update : AddressUpdate.t) (current_user : User.t)
         (db : DB),
    fst (update_address user_id update current_user db)
    <> Raise (HTTPException 403 "Not authorized to update this address").
Proof.
  intros user_id update cu db. unfold update_address.
  destruct (Z_ne user_id (User.id cu) && str_ne (User.role cu) "admin")
    eqn:Hguard; [simpl; discriminate|].
  unfold bind, crud.get_address, query.
  destruct (find (fun a => Address.user_id a =? user_id) (addresses db))
    as [a|] eqn:Hfind; [|simpl; discriminate].
  apply find_some in Hfind as [_ Ha]. apply Z.eqb_eq in Ha.
  rewrite Ha, Hguard. unfold crud.update_address. simpl. discriminate.
Qed.

(** X8. An address added through POST /addresses/ is listed by
    GET /addresses/{user_id}, last, after the addresses the user already
    had; the listing asks for no requester. *)
Theorem added_address_is_listed :
  forall (user_id : Z) (address : AddressCreate.t) (current_user : User.t)
         (a : Address.t) (old : list Address.t) (db db1 : DB),
    list_addresses user_id db = (Ok old, db) ->
    add_address user_id address current_user db = (Ok a, db1) ->
    Address.user_id a = user_id
    /\ Address.body a = AddressCreate.body address
    /\ list_addresses user_id db1 = (Ok (old ++ [a])%list, db1).
Proof.
  intros user_id address cu a old db db1 Hold. unfold add_address.
  destruct (Z_ne user_id (User.id cu) && str_ne (User.role cu) "admin");
    [discriminate|].
  unfold crud.create_address. intro Hrun. injection Hrun as <- <-.
  unfold list_addresses, crud.get_addresses, query in *.
  injection Hold as <-. cbn [addresses set_addresses Address.user_id Address.body].
  rewrite filter_app. simpl. now rewrite Z.eqb_refl.
Qed.

Lemma added_address_is_listed_witness :
  list_addresses 1 shop_db = (Ok [], shop_db)
  /\ exists a db1,
       add_address 1 (AddressCreate.mk "1 Quay Street") alice shop_db
       = (Ok a, db1)
       /\ list_addresses 1 db1 = (Ok [a], db1).
Proof.
  assert (Hold : list_addresses 1 shop_db = (Ok [], shop_db)) by reflexivity.
  split; [exact Hold|].
  eexists. eexists. split; [reflexivity|].
  exact (proj2 (proj2 (added_address_is_listed 1
           (AddressCreate.mk "1 Quay Street") alice _ [] shop_db _
           Hold eq_refl))).
Defined.

(** ** Carts *)

(** What GET /cart/{user_id} does once the ownership test has passed. *)
Lemma get_cart_cases (user_id : Z) (current_user : User.t) (c : Cart.t)
      (db db1 : DB) :
  get_cart user_id current_user db = (Ok c, db1) ->
  (find (fun x => Cart.user_id x =? User.id current_user) (carts db) = Some c
   /\ db1 = db)
  \/ (find (fun x => Cart.user_id x =? User.id current_user) (carts db) = None
      /\ c = Cart.mk (next_id (map Cart.id (carts db))) (User.id current_user)
      /\ db1 = set_carts (carts db ++ [c]) db).
Proof.
  unfold get_cart.
  destruct (Z_ne (User.id current_user) user_id
            && str_ne (User.role current_user) "admin"); [discriminate|].
  unfold bind, crud.get_cart, query, crud.create_cart, ret.
  destruct (find (fun x => Cart.user_id x =? User.id current_user) (carts db))
    as [c0|]; intro Hrun; injection Hrun as <- <-.
  - left. now split.
  - right. repeat split.
Qed.

(** X9. Whichever user id the path names and whoever asks, the cart that
    GET /cart/{user_id} answers is owned by the requester, it is the cart a
    lookup for the requester finds afterwards, and no cart line is touched. *)
Theorem get_cart_answers_requesters_cart :
  forall (user_id : Z) (current_user : User.t) (c : Cart.t) (db db1 : DB),
    get_cart user_id current_user db = (Ok c, db1) ->
    Cart.user_id c = User.id current_user
    /\ crud.get_cart (User.id current_user) db1 = (Ok (Some c), db1)
    /\ cart_items db1 = cart_items db.
Proof.
  intros user_id cu c db db1 Hrun.
  unfold crud.get_cart, query.
  destruct (get_cart_cases _ _ _ _ _ Hrun) as [[Hfind ->]|[Hfind [Hc ->]]].
  - rewrite Hfind. destruct (find_some _ _ Hfind) as [_ Hu].
    apply Z.eqb_eq in Hu. now repeat split.
  - cbn [carts set_carts cart_items].
    rewrite (find_app_miss _ _ c Hfind); [| rewrite Hc; apply Z.eqb_refl].
    rewrite Hc. now repeat split.
Qed.

Lemma get_cart_answers_requesters_cart_witness :
  exists c db1,
    get_cart 1 root shop_db = (Ok c, db1)
    /\ Cart.user_id c = 3
    /\ crud.get_cart 3 db1 = (Ok (Some c), db1).
Proof.
  eexists. eexists. split; [reflexivity|].
  destruct (get_cart_answers_requesters_cart 1 root _ shop_db _ eq_refl)
    as [Hown [Hget _]].
  split; [exact Hown|exact Hget].
Defined.

(** X10. GET /cart/{user_id} creates a cart at most once: asked again in
    the store the first answer left, it answers the same cart and writes
    nothing. *)
Theorem get_cart_twice :
  forall (user_id : Z) (current_user : User.t) (c : Cart.t) (db db1 : DB),
    get_cart user_id current_user db = (Ok c, db1) ->
    get_cart user_id current_user db1 = (Ok c, db1).
Proof.
  intros user_id cu c db db1 Hrun.
  assert (Hfind : find (fun x => Cart.user_id x =? User.id cu) (carts db1)
                  = Some c).
  { destruct (get_cart_cases _ _ _ _ _ Hrun) as [[Hfind ->]|[Hfind [Hc ->]]];
      [exact Hfind|].
    cbn [carts set_carts]. apply find_app_miss; [exact Hfind|].
    rewrite Hc. apply Z.eqb_refl. }
  revert Hrun. unfold get_cart.
  destruct (Z_ne (User.id cu) user_id && str_ne (User.role cu) "admin");
    [discriminate|].
  intros _. unfold bind, crud.get_cart, query. now rewrite Hfind.
Qed.

Lemma get_cart_twice_witness :
  exists c db1,
    get_cart 2 bob shop_db = (Ok c, db1)
    /\ carts db1 = [Cart.mk 1 1; Cart.mk 2 2]
    /\ get_cart 2 bob db1 = (Ok c, db1).
Proof.
  eexists. eexists. split; [reflexivity|]. split; [reflexivity|].
  exact (get_cart_twice 2 bob _ shop_db _ eq_refl).
Defined.

Lemma lazy_cart_unique (user_id : Z) (db : DB) :
  carts_unique db ->
  find (fun x => Cart.user_id x =? user_id) (carts db) = None ->
  carts_unique
    (set_carts (carts db ++ [Cart.mk (next_id (map Cart.id (carts db))) user_id])
               db).
Proof.
  intros Huniq Hfind. unfold carts_unique. cbn [carts set_carts].
  rewrite map_app. simpl.
  apply NoDup_app; [exact Huniq | repeat constructor; simpl; tauto |].
  intros k Hk [<-|[]]. apply in_map_iff in Hk as [x [Hx Hin]].
  apply (find_none _ _ Hfind) in Hin. apply Z.eqb_neq in Hin. contradiction.
Qed.

(** X11. The cart routes keep one cart per user: if no user owns two carts
    before GET /cart/{user_id} or POST /cart/{user_id}/items, none does
    after, whatever the request answers. *)
Theorem cart_routes_keep_one_cart_per_user :
  forall (user_id : Z) (item : CartItemBase.t) (current_user : User.t)
         (db : DB),
    carts_unique db ->
    carts_unique (snd (get_cart user_id current_user db))
    /\ carts_unique (snd (add_item_to_cart user_id item current_user db)).
Proof.
  intros user_id item cu db Huniq. unfold get_cart, add_item_to_cart.
  destruct (Z_ne (User.id cu) user_id && str_ne (User.role cu) "admin");
    [now split|].
  unfold bind, crud.get_cart, query, crud.create_cart, ret.
  destruct (find (fun x => Cart.user_id x =? User.id cu) (carts db))
    as [c|] eqn:Hfind.
  - split; [exact Huniq|].
    destruct (add_cart_item_lands (Cart.id c) item db)
      as [row [db1 [Hrun [Hcarts _]]]].
    rewrite Hrun. unfold carts_unique. simpl snd. now rewrite Hcarts.
  - pose proof (lazy_cart_unique _ _ Huniq Hfind) as Hnew.
    split; [exact Hnew|].
    match goal with
    | |- context [crud.add_cart_item ?c item ?d] =>
        destruct (add_cart_item_lands c item d)
          as [row [db1 [Hrun [Hcarts _]]]]
    end.
    rewrite Hrun. unfold carts_unique in *. simpl snd. now rewrite Hcarts.
Qed.

Lemma cart_routes_keep_one_cart_per_user_witness :
  carts_unique shop_db
  /\ carts_unique (snd (get_cart 2 bob shop_db))
  /\ map Cart.user_id
       (carts (snd (add_item_to_cart 2 (CartItemBase.mk 7 1) bob shop_db)))
     = [1; 2].
Proof.
  assert (Huniq : carts_unique shop_db).
  { unfold carts_unique. simpl. repeat constructor; simpl; tauto. }
  split; [exact Huniq|]. split; [|reflexivity].
  exact (proj1 (cart_routes_keep_one_cart_per_user 2 (CartItemBase.mk 7 1)
                  bob shop_db Huniq)).
Defined.

(** X12. Whichever user id the path names, a line that
    POST /cart/{user_id}/items answers is stored in the requester's own
    cart, for the product of the body. *)
Theorem added_line_lands_in_requesters_cart :
  forall (user_id : Z) (item : CartItemBase.t) (current_user : User.t)
         (row : CartItem.t) (db db1 : DB),
    add_item_to_cart user_id item current_user db = (Ok row, db1) ->
    exists cart,
      crud.get_cart (User.id current_user) db1 = (Ok (Some cart), db1)
      /\ Cart.user_id cart = User.id current_user
      /\ CartItem.cart_id row = Cart.id cart
      /\ CartItem.product_id row = CartItemBase.product_id item
      /\ In row (cart_items db1).
Proof.
  intros user_id item cu row db db1. unfold add_item_to_cart.
  destruct (Z_ne (User.id cu) user_id && str_ne (User.role cu) "admin");
    [discriminate|].
  unfold bind, crud.get_cart, query, crud.create_cart, ret.
  destruct (find (fun x => Cart.user_id x =? User.id cu) (carts db))
    as [c|] eqn:Hfind.
  - destruct (add_cart_item_lands (Cart.id c) item db)
      as [row' [db' [Hrun [Hcarts Hline]]]].
    rewrite Hrun. intro Heq. injection Heq as <- <-.
    exists c. rewrite Hcarts, Hfind.
    destruct (find_some _ _ Hfind) as [_ Hu]. apply Z.eqb_eq in Hu.
    destruct (find_some _ _ Hline) as [Hin Hsame].
    apply same_line_key in Hsame. injection Hsame as Hc Hp.
    now repeat split.
  - match goal with
    | |- context [crud.add_cart_item ?c item ?d] =>
        destruct (add_cart_item_lands c item d)
          as [row' [db' [Hrun [Hcarts Hline]]]]
    end.
    rewrite Hrun. intro Heq. injection Heq as <- <-.
    exists (Cart.mk (next_id (map Cart.id (carts db))) (User.id cu)).
    rewrite Hcarts. cbn [carts set_carts].
    rewrite find_app_miss; [| exact Hfind | apply Z.eqb_refl].
    destruct (find_some _ _ Hline) as [Hin Hsame].
    apply same_line_key in Hsame. injection Hsame as Hc Hp.
    now repeat split.
Qed.

Lemma added_line_lands_in_requesters_cart_witness :
  exists row db1 cart,
    add_item_to_cart 1 (CartItemBase.mk 7 3) root shop_db = (Ok row, db1)
    /\ crud.get_cart 3 db1 = (Ok (Some cart), db1)
    /\ CartItem.cart_id row = Cart.id cart
    /\ Cart.user_id cart = 3.
Proof.
  destruct (added_line_lands_in_requesters_cart 1 (CartItemBase.mk 7 3) root
              _ shop_db _ eq_refl) as [cart [Hget [Hown [Hcart _]]]].
  eexists. eexists. exists cart.
  split; [reflexivity|]. split; [exact Hget|]. split; [exact Hcart|exact Hown].
Defined.

(** X13. DELETE /cart/items/{id} for a stored line, whoever sends it (the
    owner included): the handler deletes the rows with that id and then
    fails reading the cart of the deleted row, so the request is answered
    500, the ownership test and the second remove call are never reached,
    and the same request sent again is answered 404. *)
Theorem delete_of_stored_line_fails_after_deleting :
  forall (cart_item_id : Z) (current_user : User.t) (item : CartItem.t)
         (db : DB),
    find (fun i => CartItem.id i =? cart_item_id) (cart_items db) = Some item ->
    delete_cart_item cart_item_id current_user db
    = (Raise DetachedInstanceError,
       set_cart_items (crud.delete_row CartItem.id cart_item_id (cart_items db))
                      db)
    /\ status_of (fst (delete_cart_item cart_item_id current_user db)) 200 = 500
    /\ delete_cart_item cart_item_id current_user
         (set_cart_items
            (crud.delete_row CartItem.id cart_item_id (cart_items db)) db)
       = (Raise (HTTPException 404 "Cart item not found"),
          set_cart_items
            (crud.delete_row CartItem.id cart_item_id (cart_items db)) db).
Proof.
  intros i cu item db Hitem.
  rewrite (delete_cart_item_of_stored_line i cu item db Hitem).
  split; [reflexivity|]. split; [reflexivity|].
  unfold delete_cart_item, bind, crud.remove_cart_item.
  cbn [cart_items set_cart_items]. now rewrite find_deleted.
Qed.

Lemma delete_of_stored_line_fails_after_deleting_witness :
  find (fun i => CartItem.id i =? 1) (cart_items shop_db)
  = Some (CartItem.mk 1 1 7 2)
  /\ cart_item_owner 1 shop_db = Some (User.id alice)
  /\ delete_cart_item 1 alice shop_db
     = (Raise DetachedInstanceError, set_cart_items [] shop_db).
Proof.
  assert (Hitem : find (fun i => CartItem.id i =? 1) (cart_items shop_db)
                  = Some (CartItem.mk 1 1 7 2)) by reflexivity.
  split; [exact Hitem|]. split; [reflexivity|].
  exact (proj1 (delete_of_stored_line_fails_after_deleting 1 alice _ shop_db
                  Hitem)).
Defined.

(** ** Orders *)

(** X14. GET /orders/detail/{id} looks the order up before it tests
    ownership: a requester who is not an admin is answered 403 for an order
    of somebody else and 404 for an id that is not stored, so the answer
    tells a stranger which order ids exist. *)
Theorem get_order_lookup_precedes_ownership :
  forall (order_id : Z) (N : User.t) (o : Order.t) (db1 db2 : DB),
    User.role N <> "admin" ->
    find (fun x => Order.id x =? order_id) (orders db1) = Some o ->
    Order.user_id o <> User.id N ->
    find (fun x => Order.id x =? order_id) (orders db2) = None ->
    get_order order_id N db1
    = (Raise (HTTPException 403 "Not allowed to access this order"), db1)
    /\ get_order order_id N db2
       = (Raise (HTTPException 404 "Order not found"), db2).
Proof.
  intros order_id N o db1 db2 Hrole Hsome Hother Hnone.
  destruct (stranger_rejected _ _ Hother Hrole) as [Hguard _].
  unfold get_order, bind, crud.get_order, query.
  rewrite Hsome, Hnone, Hguard. now split.
Qed.

Lemma get_order_lookup_precedes_ownership_witness :
  exists db1,
    create_order_from_cart 1 alice shop_db = (Ok (Order.mk 1 1 "placed"), db1)
    /\ User.role bob <> "admin"
    /\ get_order 1 bob db1
       = (Raise (HTTPException 403 "Not allowed to access this order"), db1)
    /\ get_order 1 bob shop_db
       = (Raise (HTTPException 404 "Order not found"), shop_db).
Proof.
  assert (Hrole : User.role bob <> "admin") by (simpl; discriminate).
  exists (snd (create_order_from_cart 1 alice shop_db)).
  split; [reflexivity|]. split; [exact Hrole|].
  refine (get_order_lookup_precedes_ownership 1 bob (Order.mk 1 1 "placed")
            (snd (create_order_from_cart 1 alice shop_db)) shop_db
            Hrole eq_refl _ eq_refl).
  simpl. lia.
Defined.

(** X15. Whichever user id the path names and whoever asks, every order
    that GET /orders/{user_id} lists belongs to the requester, and the
    request writes nothing. *)
Theorem get_orders_lists_only_own :
  forall (user_id : Z) (current_user : User.t) (l : list Order.t)
         (db db1 : DB),
    get_orders user_id current_user db = (Ok l, db1) ->
    db1 = db
    /\ forall o, In o l <->
                 In o (orders db) /\ Order.user_id o = User.id current_user.
Proof.
  intros user_id cu l db db1. unfold get_orders.
  destruct (Z_ne user_id (User.id cu) && str_ne (User.role cu) "admin");
    [discriminate|].
  unfold crud.get_orders, query. intro Hrun. injection Hrun as <- <-.
  split; [reflexivity|]. intro o. rewrite filter_In, Z.eqb_eq. tauto.
Qed.

Lemma get_orders_lists_only_own_witness :
  exists l db1,
    get_orders 1 root (snd (create_order_from_cart 1 alice shop_db))
    = (Ok l, db1)
    /\ In (Order.mk 1 1 "placed")
          (orders (snd (create_order_from_cart 1 alice shop_db)))
    /\ ~ In (Order.mk 1 1 "placed") l.
Proof.
  eexists. eexists. split; [reflexivity|]. split; [simpl; tauto|].
  intro Hin.
  apply (proj2 (get_orders_lists_only_own 1 root _ _ _ eq_refl)) in Hin.
  destruct Hin as [_ Hown]. simpl in Hown. lia.
Defined.

(** What POST /orders/ stores when it answers an order. *)
Lemma create_order_cases (user_id : Z) (current_user : User.t) (o : Order.t)
      (db db1 : DB) :
  create_order_from_cart user_id current_user db = (Ok o, db1) ->
  Z_ne user_id (User.id current_user)
  && str_ne (User.role current_user) "admin" = false
  /\ o = Order.mk (next_id (map Order.id (orders db))) (User.id current_user)
                  "placed"
  /\ orders db1 = (orders db ++ [o])%list
  /\ carts db1 = carts db
  /\ exists cart,
       find (fun c => Cart.user_id c =? User.id current_user) (carts db)
       = Some cart
       /\ cart_items db1
          = filter (fun i => negb (CartItem.cart_id i =? Cart.id cart))
                   (cart_items db).
Proof.
  unfold create_order_from_cart.
  destruct (Z_ne user_id (User.id current_user)
            && str_ne (User.role current_user) "admin"); [discriminate|].
  unfold crud.create_order_from_cart_for_user.
  destruct (find (fun c => Cart.user_id c =? User.id current_user) (carts db))
    as [cart|]; [|discriminate].
  destruct (crud.cart_lines (Cart.id cart) db); [discriminate|].
  intro Hrun. injection Hrun as <- <-.
  repeat split. exists cart. now split.
Qed.

(** X16. A cart is ordered once: in the store a successful POST /orders/
    leaves, the same request is answered 400 and stores nothing. *)
Theorem second_order_is_rejected :
  forall (user_id : Z) (current_user : User.t) (o : Order.t) (db db1 : DB),
    create_order_from_cart user_id current_user db = (Ok o, db1) ->
    create_order_from_cart user_id current_user db1
    = (Raise (HTTPException 400 "Cart is empty"), db1).
Proof.
  intros user_id cu o db db1 Hrun.
  destruct (create_order_cases _ _ _ _ _ Hrun)
    as [Hguard [_ [_ [Hcarts [cart [Hcart Hitems]]]]]].
  unfold create_order_from_cart. rewrite Hguard.
  unfold crud.create_order_from_cart_for_user. rewrite Hcarts, Hcart.
  unfold crud.cart_lines. rewrite Hitems.
  now rewrite cleared_cart_has_no_lines.
Qed.

Lemma second_order_is_rejected_witness :
  exists o db1,
    create_order_from_cart 1 alice shop_db = (Ok o, db1)
    /\ create_order_from_cart 1 alice db1
       = (Raise (HTTPException 400 "Cart is empty"), db1).
Proof.
  eexists. eexists. split; [reflexivity|].
  exact (second_order_is_rejected 1 alice _ shop_db _ eq_refl).
Defined.

(** X17. An order that POST /orders/ answers is listed by
    GET /orders/{user_id} for the same requester, last, after the orders
    listed before, and GET /orders/detail/{id} answers it to that requester. *)
Theorem placed_order_is_listed :
  forall (user_id : Z) (current_user : User.t) (o : Order.t)
         (old : list Order.t) (db db1 : DB),
    get_orders user_id current_user db = (Ok old, db) ->
    create_order_from_cart user_id current_user db = (Ok o, db1) ->
    get_orders user_id current_user db1 = (Ok (old ++ [o])%list, db1)
    /\ get_order (Order.id o) current_user db1 = (Ok o, db1).
Proof.
  intros user_id cu o old db db1 Hold Hrun.
  destruct (create_order_cases _ _ _ _ _ Hrun) as [Hguard [Ho [Horders _]]].
  assert (Huser : Order.user_id o = User.id cu) by now rewrite Ho.
  assert (Hid : Order.id o = next_id (map Order.id (orders db)))
    by now rewrite Ho.
  revert Hold. unfold get_orders. rewrite Hguard.
  unfold crud.get_orders, query. intro Hold. injection Hold as <-. split.
  - rewrite Horders, filter_app. simpl. now rewrite Huser, Z.eqb_refl.
  - unfold get_order, bind, crud.get_order, query. rewrite Horders.
    rewrite find_app_miss with (x := o).
    + now rewrite Huser, (owner_accepted cu).
    + rewrite Hid. apply (find_fresh_id Order.id).
    + apply Z.eqb_refl.
Qed.

Lemma placed_order_is_listed_witness :
  get_orders 1 alice shop_db = (Ok [], shop_db)
  /\ exists o db1,
       create_order_from_cart 1 alice shop_db = (Ok o, db1)
       /\ get_orders 1 alice db1 = (Ok [o], db1)
       /\ get_order (Order.id o) alice db1 = (Ok o, db1).
Proof.
  assert (Hold : get_orders 1 alice shop_db = (Ok [], shop_db)) by reflexivity.
  split; [exact Hold|].
  eexists. eexists. split; [reflexivity|].
  exact (placed_order_is_listed 1 alice _ [] shop_db _ Hold eq_refl).
Defined.

Lemma snapshot_order_id (order_id base : Z) (lines : list CartItem.t)
      (r : OrderItem.t) :
  In r (crud.snapshot order_id base lines) -> OrderItem.order_id r = order_id.
Proof.
  revert base. induction lines as [|i lines IH]; intro base; simpl; [tauto|].
  intros [<-|Hin]; [reflexivity|]. now apply (IH (base + 1)).
Qed.

(** X18. POST /orders/ keeps every order line attached to a stored order:
    if that holds before the request it holds after, whatever the request
    answers. *)
Theorem order_lines_stay_attached :
  forall (user_id : Z) (current_user : User.t) (db : DB),
    order_items_wf db ->
    order_items_wf (snd (create_order_from_cart user_id current_user db)).
Proof.
  intros user_id cu db Hwf. unfold create_order_from_cart.
  destruct (Z_ne user_id (User.id cu) && str_ne (User.role cu) "admin");
    [exact Hwf|].
  unfold crud.create_order_from_cart_for_user.
  destruct (find (fun c => Cart.user_id c =? User.id cu) (carts db))
    as [cart|]; [|exact Hwf].
  destruct (crud.cart_lines (Cart.id cart) db) as [|i lines]; [exact Hwf|].
  unfold order_items_wf. cbn [snd order_items orders set_cart_items
                               set_order_items set_orders].
  intros r Hr. rewrite map_app. apply in_or_app.
  apply in_app_or in Hr as [Hr|Hr].
  - left. now apply Hwf.
  - right. apply snapshot_order_id in Hr. rewrite Hr. now left.
Qed.

Lemma order_lines_stay_attached_witness :
  order_items_wf shop_db
  /\ order_items_wf (snd (create_order_from_cart 1 alice shop_db))
  /\ order_items (snd (create_order_from_cart 1 alice shop_db))
     = [OrderItem.mk 1 1 7 2].
Proof.
  assert (Hwf : order_items_wf shop_db) by (intros i Hi; destruct Hi).
  split; [exact Hwf|]. split; [|reflexivity].
  exact (order_lines_stay_attached 1 alice shop_db Hwf).
Defined.

Lemma NoDup_map_filter {R B} (f : R -> B) (p : R -> bool) (l : list R) :
  NoDup (map f l) -> NoDup (map f (filter p l)).
Proof.
  induction l as [|x l IH]; simpl; [trivial|].
  intro Hnd. apply NoDup_cons_iff in Hnd as [Hx Hnd].
  destruct (p x); [|now apply IH]. simpl. constructor; [|now apply IH].
  intro Hin. apply Hx. apply in_map_iff in Hin as [y [Hy Hin]].
  apply filter_In in Hin as [Hin _]. rewrite <- Hy. now apply in_map.
Qed.

Lemma filter_wf (p : CartItem.t -> bool) (db : DB) :
  cart_items_wf db ->
  cart_items_wf (set_cart_items (filter p (cart_items db)) db).
Proof.
  intros [Hids Hkeys]. split; cbn [cart_items set_cart_items];
    now apply NoDup_map_filter.
Qed.

(** X19. The other routes that write cart lines keep the table well
    formed too: after PUT /cart/items/{id}, DELETE /cart/items/{id} or
    POST /orders/, whatever they answer, line ids are still unique and no
    cart holds two lines for one product. *)
Theorem cart_line_routes_keep_lines_unique :
  forall (cart_item_id quantity user_id : Z) (current_user : User.t) (db : DB),
    cart_items_wf db ->
    cart_items_wf (snd (update_cart_item cart_item_id quantity current_user db))
    /\ cart_items_wf (snd (delete_cart_item cart_item_id current_user db))
    /\ cart_items_wf (snd (create_order_from_cart user_id current_user db)).
Proof.
  intros i q user_id cu db Hwf. split; [|split].
  - rewrite update_cart_item_writes_first. unfold crud.update_cart_item.
    destruct (find (fun x => CartItem.id x =? i) (cart_items db))
      as [old|] eqn:Hfind; [|exact Hwf].
    destruct Hwf as [Hids Hkeys]. apply find_some in Hfind as [Hin _].
    split; cbn [snd cart_items set_cart_items].
    + rewrite (replace_row_column CartItem.id CartItem.id) with (old := old);
        auto.
    + rewrite (replace_row_column CartItem.id line_key) with (old := old);
        auto.
  - rewrite delete_cart_item_writes_first. unfold crud.remove_cart_item.
    destruct (find (fun x => CartItem.id x =? i) (cart_items db));
      [|exact Hwf].
    now apply filter_wf.
  - unfold create_order_from_cart.
    destruct (Z_ne user_id (User.id cu) && str_ne (User.role cu) "admin");
      [exact Hwf|].
    unfold crud.create_order_from_cart_for_user.
    destruct (find (fun c => Cart.user_id c =? User.id cu) (carts db))
      as [cart|]; [|exact Hwf].
    destruct (crud.cart_lines (Cart.id cart) db) as [|l0 lines]; [exact Hwf|].
    destruct Hwf as [Hids Hkeys].
    split; cbn [snd cart_items set_cart_items set_order_items set_orders];
      now apply NoDup_map_filter.
Qed.

Lemma cart_line_routes_keep_lines_unique_witness :
  cart_items_wf shop_db
  /\ cart_items_wf (snd (update_cart_item 1 5 alice shop_db))
  /\ cart_items (snd (update_cart_item 1 5 alice shop_db))
     = [CartItem.mk 1 1 7 5].
Proof.
  assert (Hwf : cart_items_wf shop_db).
  { split; simpl; repeat constructor; simpl; tauto. }
  split; [exact Hwf|]. split; [|reflexivity].
  exact (proj1 (cart_line_routes_keep_lines_unique 1 5 1 alice shop_db Hwf)).
Defined.

(** ** Wishlist *)

(** X20. An entry that POST /wishlist/ answers belongs to the requester and
    is listed last by GET /wishlist/; when the requester then deletes it with
    DELETE /wishlist/{id} the request succeeds and the store is exactly what
    it was before the entry was added. *)
Theorem wishlist_add_then_remove :
  forall (product_id : Z) (current_user : User.t) (w : Wishlist.t)
         (old : list Wishlist.t) (db db1 : DB),
    get_wishlist_endpoint current_user db = (Ok old, db) ->
    add_to_wishlist_endpoint product_id current_user db = (Ok w, db1) ->
    Wishlist.user_id w = User.id current_user
    /\ Wishlist.product_id w = product_id
    /\ get_wishlist_endpoint current_user db1 = (Ok (old ++ [w])%list, db1)
    /\ remove_wishlist_endpoint (Wishlist.id w) current_user db1 = (Ok tt, db).
Proof.
  intros product_id cu w old db db1 Hold.
  unfold add_to_wishlist_endpoint, crud.add_to_wishlist.
  intro Hrun. injection Hrun as <- <-.
  revert Hold. unfold get_wishlist_endpoint, crud.get_wishlist, query.
  intro Hold. injection Hold as <-.
  split; [reflexivity|]. split; [reflexivity|]. split.
  - cbn [wishlist set_wishlist]. rewrite filter_app. simpl.
    now rewrite Z.eqb_refl.
  - unfold remove_wishlist_endpoint, bind, crud.remove_from_wishlist.
    cbn [wishlist set_wishlist Wishlist.id].
    rewrite find_app_miss;
      [| apply (find_fresh_id Wishlist.id) | apply Z.eqb_refl].
    cbn [Wishlist.user_id]. rewrite (owner_accepted cu).
    unfold ret. f_equal.
    set (w := Wishlist.mk (next_id (map Wishlist.id (wishlist db)))
                          (User.id cu) product_id).
    change (next_id (map Wishlist.id (wishlist db))) with (Wishlist.id w).
    rewrite (delete_row_fresh Wishlist.id) by reflexivity.
    now destruct db.
Qed.

Lemma wishlist_add_then_remove_witness :
  get_wishlist_endpoint bob shop_db = (Ok [], shop_db)
  /\ exists w db1,
       add_to_wishlist_endpoint 7 bob shop_db = (Ok w, db1)
       /\ get_wishlist_endpoint bob db1 = (Ok [w], db1)
       /\ remove_wishlist_endpoint (Wishlist.id w) bob db1 = (Ok tt, shop_db).
Proof.
  assert (Hold : get_wishlist_endpoint bob shop_db = (Ok [], shop_db))
    by reflexivity.
  split; [exact Hold|].
  destruct (wishlist_add_then_remove 7 bob _ [] shop_db _ Hold eq_refl)
    as [_ [_ [Hlist Hremove]]].
  eexists. eexists. split; [reflexivity|].
  split; [exact Hlist|exact Hremove].
Defined.

(** ** Products *)

(** What POST /products/ stores. *)
Lemma create_product_cases `{SellerIdPolicy} (product : ProductBase.t)
      (current_user : User.t) (p : Product.t) (db db1 : DB) :
  create_product product current_user db = (Ok p, db1) ->
  Product.id p = next_id (map Product.id (products db))
  /\ (User.role current_user = "seller" ->
      Product.seller_id p = Some (User.id current_user))
  /\ db1 = set_products (products db ++ [p]) db
  /\ find (fun x => Product.id x =? Product.id p) (products db1) = Some p.
Proof.
  unfold create_product, crud.create_product.
  intro Hrun. injection Hrun as <- <-.
  split; [reflexivity|]. split; [|split; [reflexivity|]].
  - intro Hrole. rewrite Hrole. simpl. apply stored_seller_id_agree.
  - cbn [products set_products Product.id].
    apply find_app_miss; [apply (find_fresh_id Product.id) | apply Z.eqb_refl].
Qed.

(** X21. A product that POST /products/ answers can be read back with
    GET /products/{id} under the id of the answer. *)
Theorem created_product_is_readable `{SellerIdPolicy} :
  forall (product : ProductBase.t) (current_user : User.t) (p : Product.t)
         (db db1 : DB),
    create_product product current_user db = (Ok p, db1) ->
    get_product (Product.id p) db1 = (Ok p, db1).
Proof.
  intros product cu p db db1 Hrun.
  destruct (create_product_cases _ _ _ _ _ Hrun) as [_ [_ [_ Hfind]]].
  unfold get_product, bind, crud.get_product, query. now rewrite Hfind.
Qed.

Lemma created_product_is_readable_witness :
  exists p db1,
    @create_product keyword_wins (ProductBase.mk "ink" 450 1 None) sam shop_db
    = (Ok p, db1)
    /\ Product.id p = 8
    /\ get_product 8 db1 = (Ok p, db1).
Proof.
  eexists. eexists. split; [reflexivity|]. split; [reflexivity|].
  exact (@created_product_is_readable keyword_wins
           (ProductBase.mk "ink" 450 1 None) sam _ shop_db _ eq_refl).
Defined.

(** X22. A product a seller has created is theirs on the seller routes:
    another seller who sends PUT or DELETE /seller/products/{id} for it is
    answered 404 and changes nothing, while the creator's DELETE succeeds,
    after which the id reads as 404. *)
Theorem seller_created_product_is_their_own `{SellerIdPolicy} :
  forall (product product_update : ProductBase.t) (S T : User.t)
         (p : Product.t) (db db1 : DB),
    User.role S = "seller" ->
    User.role T = "seller" ->
    User.id T <> User.id S ->
    create_product product S db = (Ok p, db1) ->
    seller_update_product (Product.id p) product_update T db1
    = (Raise (HTTPException 404 "Product not found or not authorized"), db1)
    /\ seller_delete_product (Product.id p) T db1
       = (Raise (HTTPException 404 "Product not found or not authorized"), db1)
    /\ exists db2,
         seller_delete_product (Product.id p) S db1
         = (Ok "Product deleted successfully", db2)
         /\ get_product (Product.id p) db2
            = (Raise (HTTPException 404 "Product not found"), db2).
Proof.
  intros product upd S T p db db1 HS HT Hdiff Hrun.
  destruct (create_product_cases _ _ _ _ _ Hrun) as [_ [Hseller [_ Hfind]]].
  specialize (Hseller HS).
  assert (Hforeign : crud.owned_by (User.id T) p = false).
  { apply not_owned_by. rewrite Hseller. congruence. }
  assert (Hown : crud.owned_by (User.id S) p = true).
  { unfold crud.owned_by. rewrite Hseller. apply Z.eqb_refl. }
  unfold seller_update_product, seller_delete_product, bind.
  rewrite (seller_passes_guard T db1 HT), (seller_passes_guard S db1 HS).
  unfold crud.update_product, crud.delete_product.
  rewrite HT, HS, Hfind. simpl String.eqb. cbv iota.
  rewrite Hforeign, Hown. simpl orb.
  split; [reflexivity|]. split; [reflexivity|].
  eexists. split; [reflexivity|].
  unfold get_product, bind, crud.get_product, query.
  cbn [products set_products]. now rewrite find_deleted.
Qed.

Lemma seller_created_product_is_their_own_witness :
  User.role sam = "seller" /\ User.role tess = "seller"
  /\ User.id tess <> User.id sam
  /\ exists p db1,
       @create_product body_wins (ProductBase.mk "ink" 450 1 None) sam shop_db
       = (Ok p, db1)
       /\ seller_delete_product (Product.id p) tess db1
          = (Raise (HTTPException 404 "Product not found or not authorized"),
             db1).
Proof.
  assert (HS : User.role sam = "seller") by reflexivity.
  assert (HT : User.role tess = "seller") by reflexivity.
  assert (Hdiff : User.id tess <> User.id sam) by (simpl; lia).
  split; [exact HS|]. split; [exact HT|]. split; [exact Hdiff|].
  eexists. eexists. split; [reflexivity|].
  exact (proj1 (proj2 (@seller_created_product_is_their_own body_wins
           (ProductBase.mk "ink" 450 1 None) (ProductBase.mk "ink" 500 1 None)
           sam tess _ shop_db _ HS HT Hdiff eq_refl))).
Defined.

(** X23. An admin reaches every product: for a stored product, whoever
    owns it, an admin's DELETE /seller/products/{id} does exactly what
    DELETE /admin/products/{id} does, namely delete it, and an admin's
    PUT /seller/products/{id} is answered the updated product. *)
Theorem admin_reaches_every_product :
  forall (A : User.t) (product_id : Z) (product_update : ProductBase.t)
         (p : Product.t) (db : DB),
    User.role A = "admin" ->
    find (fun x => Product.id x =? product_id) (products db) = Some p ->
    seller_delete_product product_id A db = admin_delete_product product_id A db
    /\ admin_delete_product product_id A db
       = (Ok "Product deleted successfully",
          set_products (crud.delete_row Product.id product_id (products db)) db)
    /\ exists p' db',
         seller_update_product product_id product_update A db = (Ok p', db')
         /\ Product.id p' = product_id
         /\ Product.name p' = ProductBase.name product_update.
Proof.
  intros A product_id upd p db Hadmin Hfind.
  unfold seller_delete_product, admin_delete_product, seller_update_product.
  unfold auth.get_current_seller, auth.get_current_admin, str_ne.
  rewrite Hadmin. simpl String.eqb. simpl negb. simpl orb. cbv iota.
  unfold bind, ret, crud.delete_product, crud.update_product.
  rewrite Hadmin, Hfind. simpl String.eqb. simpl orb. cbv iota.
  split; [reflexivity|]. split; [reflexivity|].
  eexists. eexists. split; [reflexivity|]. simpl.
  apply find_some in Hfind as [_ Hid]. apply Z.eqb_eq in Hid. now split.
Qed.

Lemma admin_reaches_every_product_witness :
  User.role root = "admin"
  /\ find (fun x => Product.id x =? 7) (products shop_db)
     = Some (Product.mk 7 "pen" 120 1 (Some 4))
  /\ seller_delete_product 7 root shop_db
     = (Ok "Product deleted successfully", set_products [] shop_db).
Proof.
  assert (Hadmin : User.role root = "admin") by reflexivity.
  assert (Hfind : find (fun x => Product.id x =? 7) (products shop_db)
                  = Some (Product.mk 7 "pen" 120 1 (Some 4))) by reflexivity.
  split; [exact Hadmin|]. split; [exact Hfind|].
  destruct (admin_reaches_every_product root 7 (ProductBase.mk "pen" 1 1 None)
              _ shop_db Hadmin Hfind) as [Hsame [Hdel _]].
  rewrite Hsame. exact Hdel.
Defined.

(** ** Errors and the store *)

(** X24. On every route that tests ownership or role before it writes
    (all the user, address, cart and order routes; not the cart-line and
    wishlist routes addressed by row id), a request that is not answered 200
    leaves the store exactly as it found it. *)
Theorem refused_request_writes_nothing `{CryptContext} :
  forall (m : Mutation) (current_user : User.t) (db : DB),
    checks_before_write m = true ->
    fst (serve m current_user db) <> 200 ->
    snd (serve m current_user db) = db.
Proof.
  intros m cu db Hm.
  destruct m; try discriminate Hm; clear Hm; unfold serve, respond.
  - unfold update_user.
    destruct (Z_ne user_id (User.id cu) && str_ne (User.role cu) "admin");
      [reflexivity|].
    unfold bind, crud.get_user, query, crud.update_user.
    destruct (find (fun u => User.id u =? user_id) (users db));
      simpl; [congruence|reflexivity].
  - unfold delete_user.
    destruct (Z_ne user_id (User.id cu) && str_ne (User.role cu) "admin");
      [reflexivity|].
    unfold bind, crud.del_user.
    destruct (find (fun u => User.id u =? user_id) (users db));
      simpl; [congruence|reflexivity].
  - unfold admin_update_user_role, auth.get_current_admin.
    destruct (str_ne (User.role cu) "admin"); [reflexivity|].
    unfold bind, ret, crud.get_user, query, crud.update_user.
    destruct (find (fun u => User.id u =? user_id) (users db));
      [|reflexivity].
    destruct (invalid_role (UserUpdate.role update)); simpl;
      [reflexivity|congruence].
  - unfold add_address.
    destruct (Z_ne user_id (User.id cu) && str_ne (User.role cu) "admin");
      [reflexivity|].
    unfold crud.create_address. simpl. congruence.
  - unfold update_address.
    destruct (Z_ne user_id (User.id cu) && str_ne (User.role cu) "admin");
      [reflexivity|].
    unfold bind, crud.get_address, query, crud.update_address.
    destruct (find (fun a => Address.user_id a =? user_id) (addresses db))
      as [a|]; [|reflexivity].
    destruct (Z_ne (Address.user_id a) (User.id cu)
              && str_ne (User.role cu) "admin"); simpl;
      [reflexivity|congruence].
  - unfold get_cart.
    destruct (Z_ne (User.id cu) user_id && str_ne (User.role cu) "admin");
      [reflexivity|].
    unfold bind, crud.get_cart, query, crud.create_cart, ret.
    destruct (find (fun c => Cart.user_id c =? User.id cu) (carts db));
      simpl; congruence.
  - unfold add_item_to_cart.
    destruct (Z_ne (User.id cu) user_id && str_ne (User.role cu) "admin");
      [reflexivity|].
    unfold bind, crud.get_cart, query, crud.create_cart, ret.
    destruct (find (fun c => Cart.user_id c =? User.id cu) (carts db));
      match goal with
      | |- context [crud.add_cart_item ?c item ?d] =>
          destruct (add_cart_item_lands c item d) as [row [db1 [Hrun _]]]
      end; rewrite Hrun; simpl; congruence.
  - unfold create_order_from_cart.
    destruct (Z_ne user_id (User.id cu) && str_ne (User.role cu) "admin");
      [reflexivity|].
    unfold crud.create_order_from_cart_for_user.
    destruct (find (fun c => Cart.user_id c =? User.id cu) (carts db))
      as [cart|]; [|reflexivity].
    destruct (crud.cart_lines (Cart.id cart) db); simpl;
      [reflexivity|congruence].
Qed.

Lemma refused_request_writes_nothing_witness :
  checks_before_write (POST_orders 2) = true
  /\ fst (@serve tagged_crypt (POST_orders 2) bob shop_db) = 400
  /\ snd (@serve tagged_crypt (POST_orders 2) bob shop_db) = shop_db.
Proof.
  assert (Hm : checks_before_write (POST_orders 2) = true) by reflexivity.
  assert (Hcode : fst (@serve tagged_crypt (POST_orders 2) bob shop_db) = 400)
    by reflexivity.
  split; [exact Hm|]. split; [exact Hcode|].
  apply (@refused_request_writes_nothing tagged_crypt (POST_orders 2) bob
           shop_db Hm).
  rewrite Hcode. lia.
Defined.

(** X25. On the three routes addressed by row id, PUT and DELETE
    /cart/items/{id} and DELETE /wishlist/{id}, the answer is 404 exactly
    when no stored row has the id, and a 404 answer leaves the store as it
    was. *)
Theorem not_found_writes_nothing `{CryptContext} :
  forall (m : Mutation) (current_user : User.t) (db : DB),
    checks_before_write m = false ->
    (fst (serve m current_user db) = 404 <-> no_row_with_id m db)
    /\ (fst (serve m current_user db) = 404 ->
        snd (serve m current_user db) = db).
Proof.
  intros m cu db Hm.
  destruct m; try discriminate Hm; clear Hm;
    unfold serve, respond, no_row_with_id.
  - unfold update_cart_item, bind, crud.update_cart_item, CartItem_cart.
    destruct (find (fun i => CartItem.id i =? cart_item_id) (cart_items db))
      as [item|]; [|repeat split].
    match goal with
    | |- context [find ?P (cart_items ?d)] =>
        destruct (find P (cart_items d))
    end; [|simpl; repeat split; discriminate].
    cbn [carts set_cart_items CartItem.cart_id].
    destruct (find (fun c => Cart.id c =? CartItem.cart_id item) (carts db))
      as [cart|]; [|simpl; repeat split; discriminate].
    destruct (Z_ne (Cart.user_id cart) (User.id cu)
              && str_ne (User.role cu) "admin");
      simpl; repeat split; discriminate.
  - destruct (find (fun i => CartItem.id i =? cart_item_id) (cart_items db))
      as [item|] eqn:Hitem.
    + rewrite (delete_cart_item_of_stored_line _ cu _ _ Hitem). simpl.
      repeat split; discriminate.
    + unfold delete_cart_item, bind, crud.remove_cart_item. rewrite Hitem.
      repeat split.
  - unfold remove_wishlist_endpoint, bind, crud.remove_from_wishlist.
    destruct (find (fun w => Wishlist.id w =? wishlist_id) (wishlist db))
      as [w|]; [|repeat split].
    destruct (Z_ne (Wishlist.user_id w) (User.id cu)
              && str_ne (User.role cu) "admin");
      simpl; repeat split; discriminate.
Qed.

Lemma not_found_writes_nothing_witness :
  checks_before_write (DELETE_wishlist 9) = false
  /\ no_row_with_id (DELETE_wishlist 9) shop_db
  /\ fst (@serve tagged_crypt (DELETE_wishlist 9) bob shop_db) = 404
  /\ snd (@serve tagged_crypt (DELETE_wishlist 9) bob shop_db) = shop_db.
Proof.
  assert (Hm : checks_before_write (DELETE_wishlist 9) = false) by reflexivity.
  assert (Hnone : no_row_with_id (DELETE_wishlist 9) shop_db) by reflexivity.
  split; [exact Hm|]. split; [exact Hnone|].
  destruct (@not_found_writes_nothing tagged_crypt (DELETE_wishlist 9) bob
              shop_db Hm) as [Hiff Hstore].
  pose proof (proj2 Hiff Hnone) as Hcode.
  split; [exact Hcode | exact (Hstore Hcode)].
Defined.
